(** * Covasim base model ([covasim/cova_base/model.py])

    A shallow embedding of the parameter store [ParsObj], the simulation
    driver [Sim] and the two runners [single_run] and [multi_run], with the
    properties of the specification stated over it.

    Conventions of the embedding.
    - A Python [dict] is an association list in insertion order: the order is
      observable (the key listing of [__setitem__]'s error, the iteration of
      [iterpars] and of the overrides).
    - Python values are the closed universe [value]; a Python [float] is an
      exact rational ([Q]): every finite double is a rational, rounding is
      not modelled.  A Python [int] is unbounded ([Z]); the integers that
      [np.arange] yields are numpy [int64] scalars, a kind of their own
      whose arithmetic wraps around at 64 bits.
    - A raised exception is the [Err] branch of [result]; mutation of an
      object is explicit state passing (the method returns the new object).
      [sc.dcp] (deep copy) is therefore the identity.
    - Console output ([print]) is not part of the model. *)

From Stdlib Require Import String Ascii List ZArith QArith Lia Lqa Bool DecimalString.
From Stdlib Require Import Qround.
Import ListNotations.
Open Scope string_scope.
Open Scope Z_scope.

(** ** Python values *)

Inductive value : Type :=
| VNone
| VBool (b : bool)
| VInt (z : Z)
| VInt64 (z : Z)
| VFloat (q : Q)
| VStr (s : string).

Definition dquote : string := String (ascii_of_nat 34) EmptyString.
Definition newline : string := String (ascii_of_nat 10) EmptyString.

Definition type_name (v : value) : string :=
  match v with
  | VNone => "NoneType"
  | VBool _ => "bool"
  | VInt _ => "int"
  | VInt64 _ => "numpy.int64"
  | VFloat _ => "float"
  | VStr _ => "str"
  end.

Definition str_of_Z (z : Z) : string := NilZero.string_of_int (Z.to_int z).

(** ** Exceptions and the error monad *)

Inductive exn : Type :=
| KeyError (arg : value)
| ValueError (msg : string)
| TypeError (msg : string)
| AttributeError (msg : string)
| IndexError (msg : string)
| OverflowError (msg : string)
| NotImplementedError.

Inductive result (A : Type) : Type :=
| Ok (a : A)
| Err (e : exn).
Arguments Ok {A} a.
Arguments Err {A} e.

Definition bind {A B : Type} (m : result A) (k : A -> result B) : result B :=
  match m with
  | Ok a => k a
  | Err e => Err e
  end.

Notation "x <- m ;; k" := (bind m (fun x => k))
  (at level 61, m at next level, right associativity).
Notation "' pat <- m ;; k" := (bind m (fun x => match x with pat => k end))
  (at level 61, pat pattern, m at next level, right associativity).

Fixpoint mapM {A B : Type} (f : A -> result B) (l : list A) : result (list B) :=
  match l with
  | [] => Ok []
  | x :: l' => y <- f x ;; ys <- mapM f l' ;; Ok (y :: ys)
  end.

Fixpoint foldM {A B : Type} (f : A -> B -> result A) (l : list B) (a : A) : result A :=
  match l with
  | [] => Ok a
  | x :: l' => a' <- f a x ;; foldM f l' a'
  end.

(** The numeric tower: [bool], [int] and numpy [int64] are exact integers,
    [float] wins. *)
Inductive num : Type :=
| NInt (z : Z)
| NFloat (q : Q).

Definition as_num (v : value) : option num :=
  match v with
  | VBool b => Some (NInt (Z.b2z b))
  | VInt z => Some (NInt z)
  | VInt64 z => Some (NInt z)
  | VFloat q => Some (NFloat q)
  | VNone | VStr _ => None
  end.

Definition is_numeric (v : value) : bool :=
  match as_num v with Some _ => true | None => false end.

Definition num_Q (n : num) : Q :=
  match n with NInt z => inject_Z z | NFloat q => q end.

Definition unsupported (op : string) (a b : value) : exn :=
  TypeError ("unsupported operand type(s) for " ++ op ++ ": '" ++ type_name a
             ++ "' and '" ++ type_name b ++ "'").

(** numpy [int64]: the integers from [-2^63] to [2^63 - 1]; a result
    outside them wraps around (with a warning, which is not modelled). *)
Definition int64_fits (z : Z) : bool := (- 2 ^ 63 <=? z) && (z <? 2 ^ 63).

Definition wrap64 (z : Z) : Z := (z + 2 ^ 63) mod 2 ^ 64 - 2 ^ 63.

Definition is_int64 (v : value) : bool :=
  match v with VInt64 _ => true | _ => false end.

Definition out_of_bounds (z : Z) : exn :=
  OverflowError ("Python integer " ++ str_of_Z z ++ " out of bounds for int64").

(** The other operand of an [int64], converted to [int64]: a Python [int]
    must fit (numpy 2 refuses one that does not; older versions promote
    the sum instead). *)
Definition int64_operand (v : value) (z : Z) : result Z :=
  match v with
  | VInt _ => if int64_fits z then Ok z else Err (out_of_bounds z)
  | _ => Ok z
  end.

(** An operation [f] on two integers [x] and [y], the values of [a] and
    [b]: Python's exact arithmetic, unless one of them is an [int64], which
    makes it numpy's. *)
Definition int_op (f : Z -> Z -> Z) (a b : value) (x y : Z) : result value :=
  if is_int64 a || is_int64 b then
    x' <- int64_operand a x ;;
    y' <- int64_operand b y ;;
    Ok (VInt64 (wrap64 (f x' y')))
  else Ok (VInt (f x y)).

(** [a + b] (and [a += b], which for these immutable types is the same). *)
Definition py_add (op : string) (a b : value) : result value :=
  match as_num a, as_num b with
  | Some (NInt x), Some (NInt y) => int_op Z.add a b x y
  | Some x, Some y => Ok (VFloat (num_Q x + num_Q y))
  | _, _ =>
      match a, b with
      | VStr s, VStr t => Ok (VStr (s ++ t))
      | VStr _, _ => Err (TypeError ("can only concatenate str (not " ++ dquote
                                     ++ type_name b ++ dquote ++ ") to str"))
      | _, _ => Err (unsupported op a b)
      end
  end.

Fixpoint str_repeat (s : string) (n : nat) : string :=
  match n with
  | O => ""
  | S n' => s ++ str_repeat s n'
  end.

(** [a * b] (and [a *= b]). *)
Definition py_mul (op : string) (a b : value) : result value :=
  match as_num a, as_num b with
  | Some (NInt x), Some (NInt y) => int_op Z.mul a b x y
  | Some x, Some y => Ok (VFloat (num_Q x * num_Q y))
  | _, _ =>
      match a, b with
      | VStr s, _ =>
          match as_num b with
          | Some (NInt n) => Ok (VStr (str_repeat s (Z.to_nat n)))
          | _ => Err (TypeError ("can't multiply sequence by non-int of type '"
                                 ++ type_name b ++ "'"))
          end
      | _, VStr s =>
          match as_num a with
          | Some (NInt n) => Ok (VStr (str_repeat s (Z.to_nat n)))
          | _ => Err (TypeError ("can't multiply sequence by non-int of type '"
                                 ++ type_name a ++ "'"))
          end
      | _, _ => Err (unsupported op a b)
      end
  end.

(** [x > y] on rationals, as a boolean. *)
Definition Qgtb (x y : Q) : bool := negb (Qle_bool x y).

(** [a >= b]. *)
Definition py_ge (a b : value) : result bool :=
  match as_num a, as_num b with
  | Some x, Some y => Ok (Qle_bool (num_Q y) (num_Q x))
  | _, _ =>
      match a, b with
      | VStr s, VStr t => Ok (String.leb t s)
      | _, _ => Err (TypeError ("'>=' not supported between instances of '"
                                ++ type_name a ++ "' and '" ++ type_name b ++ "'"))
      end
  end.

(** ** Dictionaries in insertion order *)

Definition dict (V : Type) : Type := list (string * V).

Section Dict.
Context {V : Type}.

Fixpoint dict_get (k : string) (d : dict V) : option V :=
  match d with
  | [] => None
  | (k', v) :: d' => if String.eqb k k' then Some v else dict_get k d'
  end.

Definition dict_mem (k : string) (d : dict V) : bool :=
  match dict_get k d with Some _ => true | None => false end.

(** [d[k] = v]: overwrite in place, or append a new entry. *)
Fixpoint dict_set (k : string) (v : V) (d : dict V) : dict V :=
  match d with
  | [] => [(k, v)]
  | (k', v') :: d' =>
      if String.eqb k k' then (k', v) :: d' else (k', v') :: dict_set k v d'
  end.

(** [d.update(upd)] *)
Definition dict_update (d upd : dict V) : dict V :=
  fold_left (fun acc kv => dict_set (fst kv) (snd kv) acc) upd d.

Definition dict_keys (d : dict V) : list string := map fst d.

(** [d[k]] on a plain dict: a missing key raises [KeyError(k)]. *)
Definition dict_index (k : string) (d : dict V) : result V :=
  match dict_get k d with
  | Some v => Ok v
  | None => Err (KeyError (VStr k))
  end.
End Dict.

(** ** Objects *)

(** An argument that may or may not be a dict ([isinstance(pars, dict)]). *)
Inductive pyobj : Type :=
| PDict (d : dict value)
| PVal (v : value).

(** [class Person(ParsObj)]: nothing but its parameter store. *)
Record Person : Type := mkPerson { person_pars : dict value }.

(** The class of a simulation object: [Sim] itself, whose lifecycle hooks
    are unimplemented, or a specialization that supplies them. *)
Inductive sim_class : Type :=
| BaseSim
| DerivedSim (name : string).

Definition class_name (c : sim_class) : string :=
  match c with BaseSim => "Sim" | DerivedSim name => name end.

(** [guesses = ['r_contact', 'r0', 'beta']] *)
Definition guesses : list string := ["r_contact"; "r0"; "beta"].

(** [str] of a list of plain strings, as an f-string prints it. *)
Definition str_of_strs (l : list string) : string :=
  "[" ++ String.concat ", " (map (fun s => "'" ++ s ++ "'") l) ++ "]".

(** [found = [guess for guess in guesses if guess in <pars>.keys()]] *)
Definition found_guesses (p : dict value) : list string :=
  filter (fun guess => dict_mem guess p) guesses.

(** The text of the error of a failed guess. *)
Definition guess_error (found : list string) : exn :=
  KeyError (VStr ("Cound not guess noise parameter since out of "
                  ++ str_of_strs guesses ++ ", " ++ str_of_strs found
                  ++ " were found")).

(** [np.arange(n)], an array of [int64]; [n] is [None] when [iterpars] was
    given empty. *)
Definition np_arange (n : option Z) : result (list value) :=
  match n with
  | None => Err (unsupported "-" VNone (VInt 0))
  | Some n => Ok (map (fun i => VInt64 (Z.of_nat i)) (seq 0 (Z.to_nat n)))
  end.

(** [l[i]] on a list: negative indices count from the end. *)
Definition list_index {A : Type} (l : list A) (i : Z) : result A :=
  let len := Z.of_nat (length l) in
  let j := if i <? 0 then i + len else i in
  if (0 <=? j) && (j <? len) then
    match nth_error l (Z.to_nat j) with
    | Some a => Ok a
    | None => Err (IndexError "list index out of range")
    end
  else Err (IndexError "list index out of range").

(** [noisefactor] of [single_run], from the scaled draw [noiseval]. *)
Definition noisefactor (noiseval : Q) : Q :=
  if Qgtb noiseval 0 then (1 + noiseval)%Q else (1 / (1 - noiseval))%Q.

(** [noise * np.random.normal()]: a value times a float. *)
Definition py_mul_float (a : value) (x : Q) : result Q :=
  match as_num a with
  | Some n => Ok (num_Q n * x)%Q
  | None =>
      match a with
      | VStr _ => Err (TypeError "can't multiply sequence by non-int of type 'float'")
      | _ => Err (unsupported "*" a (VFloat x))
      end
  end.

(** ** Simulation objects *)

Section SimObject.

(** The type of a result series. *)
Variable series : Type.

(** A simulation object.  [people], [uids], [results] and [results_keys] are
    attributes that only a specialization's hooks create: [None] when the
    attribute does not exist. *)
Record Sim : Type := mkSim {
  sim_cls : sim_class;
  pars : dict value;
  people : option (dict Person);
  uids : option (list string);
  results : option (dict series);
  results_keys : option (list string)
}.

Definition with_pars (self : Sim) (p : dict value) : Sim :=
  mkSim (sim_cls self) p (people self) (uids self) (results self) (results_keys self).

Definition attr {A : Type} (self : Sim) (name : string) (a : option A) : result A :=
  match a with
  | Some x => Ok x
  | None => Err (AttributeError ("'" ++ class_name (sim_cls self)
                                 ++ "' object has no attribute '" ++ name ++ "'"))
  end.

Definition with_people (self : Sim) (p : dict Person) : Sim :=
  mkSim (sim_cls self) (pars self) (Some p) (uids self) (results self) (results_keys self).

Definition with_results (self : Sim) (r : dict series) : Sim :=
  mkSim (sim_cls self) (pars self) (people self) (uids self) (Some r) (results_keys self).

End SimObject.

Arguments mkSim {series}.
Arguments sim_cls {series}.
Arguments pars {series}.
Arguments people {series}.
Arguments uids {series}.
Arguments results {series}.
Arguments results_keys {series}.
Arguments with_pars {series}.
Arguments with_people {series}.
Arguments with_results {series}.
Arguments attr {series A}.

(** ** Sample objects

    Concrete stand-ins for what the module takes from outside, and a small
    simulation, for the examples that close the file. *)

(** A suggestion facility: the first valid name the key is a prefix of;
    like the one of sciris, it raises when there are no valid names. *)
Definition sample_suggest (key : string) (valid : list string) : result (option string) :=
  match valid with
  | [] => Err (ValueError "min() arg is an empty sequence")
  | _ => Ok (find (String.prefix key) valid)
  end.

(** A generator whose state is a counter: reseeding with an integer sets
    it, a draw reads it off as one of [-1/2, -1/4, 0, 1/4, 1/2]. *)
Definition sample_set_seed (seed : value) (g : Z) : Z :=
  match seed with VInt z | VInt64 z => z | _ => g end.

Definition sample_normal (g : Z) : Q * Z := ((g mod 5 - 2) # 4, g + 1).

(** Result series that are single counts. *)
Definition sample_series_add (a b : Z) : result Z := Ok (a + b).

(** A [run] hook that returns at once. *)
Definition sample_run (s : Sim Z) (verbose : value) (g : Z) : result (Sim Z * Z) :=
  Ok (s, g).

Definition sample_pars : dict value :=
  [("verbose", VInt 0); ("seed", VInt 1); ("n", VInt 100); ("beta", VFloat (1 # 10))].

Definition sample_people : dict Person :=
  [("p0", mkPerson [("age", VInt 30)]); ("p1", mkPerson [("age", VInt 41)])].

Definition sample_sim : Sim Z :=
  mkSim (DerivedSim "EpiSim") sample_pars (Some sample_people) (Some ["p0"; "p1"])
        (Some [("cum_exposed", 5)]) (Some ["cum_exposed"]).

(** A specialized simulation with the parameters [p] and nothing else. *)
Definition sample_sim_with (p : dict value) : Sim Z :=
  mkSim (DerivedSim "EpiSim") p None None None None.

(** A simulation of the base class, as [Sim] builds it from [sample_pars]. *)
Definition sample_base : Sim Z := mkSim BaseSim sample_pars None None None None.

(** A reseeding that forgets the state it replaces, whatever the seed. *)
Definition sample_reseed (seed : value) (g : Z) : Z :=
  match seed with
  | VNone => g
  | VBool b => Z.b2z b
  | VInt z | VInt64 z => z
  | VFloat q => Qfloor q
  | VStr s => Z.of_nat (String.length s)
  end.

(** ** The model *)

Section Model.

(** [sc.suggest(key, valid_keys)]: the closest valid name, or [None]; an
    external facility that can raise, as it does when there is no valid
    name to compare with. *)
Variable suggest : string -> list string -> result (option string).

(** The process-wide random number generator: its state, reseeding and one
    standard-normal draw ([np.random.normal()]).  Reseeding is
    [cov_ut.set_seed(seed)] of the package's [utils] module, whose code is
    outside this file's scope: it is taken as it is specified, an operation
    that resets the generator from [seed] ([None] asking for a random
    stream) and returns. *)
Variable rng : Type.
Variable cov_ut_set_seed : value -> rng -> rng.
Variable np_random_normal : rng -> Q * rng.

(** The in-place sum of two result series ([results[key] += ...]). *)
Variable series : Type.
Variable series_add : series -> series -> result series.

(** The [run(verbose=...)] hook of a specialization of [Sim]. *)
Variable derived_run : (Sim series) -> value -> rng -> result (Sim series * rng).

(** *** ParsObj *)

(** [ParsObj.__getitem__] *)
Definition __getitem__ (self_pars : dict value) (key : string) : result value :=
  dict_index key self_pars.

(** [ParsObj.__setitem__] *)
Definition __setitem__ (self_pars : dict value) (key : string) (v : value)
  : result (dict value) :=
  if dict_mem key self_pars then Ok (dict_set key v self_pars)
  else
    suggestion <- suggest key (dict_keys self_pars) ;;
    let errormsg :=
      match suggestion with
      | Some (String c s' as suggestion) =>
          "Key " ++ key ++ " not found; did you mean " ++ dquote ++ suggestion
          ++ dquote ++ "?"
      | _ =>
          let all_keys := String.concat newline (dict_keys self_pars) in
          "Key " ++ key ++ " not found; available keys:" ++ newline ++ all_keys
      end in
    Err (KeyError (VStr errormsg)).

(** [ParsObj.update_pars]; [self_pars] is [None] while the object has no
    [pars] attribute yet. *)
Definition update_pars (self_pars : option (dict value)) (new_pars : pyobj)
  : result (dict value) :=
  match new_pars with
  | PVal v => Err (TypeError ("The pars object must be a dict; you supplied a <class '"
                              ++ type_name v ++ "'>"))
  | PDict d =>
      match self_pars with
      | None => Ok d
      | Some p => Ok (dict_update p d)
      end
  end.

(** [ParsObj.__init__] *)
Definition ParsObj_init (new_pars : pyobj) : result (dict value) :=
  update_pars None new_pars.

(** [sim[key]], [sim[key] = v] and [sim.update_pars(...)] on a simulation. *)
Definition Sim_getitem (self : Sim series) (key : string) : result value :=
  __getitem__ (pars self) key.

Definition Sim_setitem (self : Sim series) (key : string) (v : value) : result (Sim series) :=
  p <- __setitem__ (pars self) key v ;; Ok (with_pars self p).

Definition Sim_update_pars (self : Sim series) (new_pars : pyobj) : result (Sim series) :=
  p <- update_pars (Some (pars self)) new_pars ;; Ok (with_pars self p).

(** *** Sim *)

(** [Sim] called with the keywords of [sim_args], which are bound to
    [__init__(self, pars)]. *)
Definition Sim_new (sim_args : dict pyobj) : result (Sim series) :=
  match find (fun kv => negb (String.eqb (fst kv) "pars")) sim_args with
  | Some (k, _) =>
      Err (TypeError ("__init__() got an unexpected keyword argument '" ++ k ++ "'"))
  | None =>
      match dict_get "pars" sim_args with
      | None => Err (TypeError "__init__() missing 1 required positional argument: 'pars'")
      | Some p => d <- ParsObj_init p ;; Ok (mkSim BaseSim d None None None None)
      end
  end.

(** [Sim.set_seed] *)
Definition set_seed (self : Sim series) (seed : value) (randomize : bool) (g : rng)
  : result (Sim series * rng) :=
  '(self, seed) <-
    (if randomize then
       match seed with
       | VNone => Ok (self, VNone)
       | _ => Err (ValueError "You can supply a seed or set randomize=True, but not both")
       end
     else
       match seed with
       | VNone => stored <- Sim_getitem self "seed" ;; Ok (self, stored)
       | _ => self' <- Sim_setitem self "seed" seed ;; Ok (self', seed)
       end) ;;
  Ok (self, cov_ut_set_seed seed g).

(** [Sim.get_person] *)
Definition get_person (self : Sim series) (ind : Z) : result Person :=
  people_ <- attr self "people" (people self) ;;
  uids_ <- attr self "uids" (uids self) ;;
  uid <- list_index uids_ ind ;;
  dict_index uid people_.

(** [new_sim.run(verbose=verbose)]: [Sim.run(self)] takes no [verbose]. *)
Definition call_run (self : Sim series) (verbose : value) (g : rng) : result (Sim series * rng) :=
  match sim_cls self with
  | BaseSim => Err (TypeError "run() got an unexpected keyword argument 'verbose'")
  | DerivedSim _ => derived_run self verbose g
  end.

(** *** single_run *)

(** Lines 165-177: the replicate (a fresh [Sim] or a copy of the template),
    its verbosity and its seed, offset by [ind] and fed to the generator. *)
Definition single_run_setup (sim : option (Sim series)) (ind verbose : value)
  (sim_args : option (dict pyobj)) (g : rng) : result (Sim series * value * rng) :=
  let sim_args := match sim_args with None => [] | Some a => a end in
  new_sim <- match sim with
             | None => Sim_new sim_args
             | Some s => Ok s
             end ;;
  verbose <- match verbose with
             | VNone => Sim_getitem new_sim "verbose"
             | _ => Ok verbose
             end ;;
  seed <- Sim_getitem new_sim "seed" ;;
  seed <- py_add "+=" seed ind ;;
  new_sim <- Sim_setitem new_sim "seed" seed ;;
  '(new_sim, g) <- set_seed new_sim VNone false g ;;
  Ok (new_sim, verbose, g).

(** Lines 180-186: the guess reads [sim.pars], the template argument. *)
Definition guess_noisepar (sim : option (Sim series)) : result value :=
  match sim with
  | None => Err (AttributeError "'NoneType' object has no attribute 'pars'")
  | Some s =>
      let found := found_guesses (pars s) in
      if negb (Nat.eqb (length found) 1) then
        Err (guess_error found)
      else
        match found with
        | g :: _ => Ok (VStr g)
        | [] => Err (IndexError "list index out of range")
        end
  end.

(** Lines 188-194: the draw, the multiplier and the perturbed parameter.
    A [noisepar] that is not a string is a key no store contains. *)
Definition apply_noise (new_sim : Sim series) (noise noisepar : value) (g : rng)
  : result (Sim series * Q * rng) :=
  let '(draw, g) := np_random_normal g in
  noiseval <- py_mul_float noise draw ;;
  let nf := noisefactor noiseval in
  key <- match noisepar with
         | VStr k => Ok k
         | _ => Err (KeyError noisepar)
         end ;;
  old <- Sim_getitem new_sim key ;;
  new <- py_mul "*=" old (VFloat nf) ;;
  new_sim <- Sim_setitem new_sim key new ;;
  Ok (new_sim, nf, g).

(** Lines 200-208, one iteration: the assignment sits under the
    [verbose>=1] test of the progress message. *)
Definition apply_override (verbose : value) (new_sim : Sim series) (kv : string * value)
  : result (Sim series) :=
  let '(key, val) := kv in
  if dict_mem key (pars new_sim) then
    loud <- py_ge verbose (VInt 1) ;;
    if loud then Sim_setitem new_sim key val else Ok new_sim
  else
    Err (KeyError (VStr ("Could not set key " ++ key ++ ": not a valid parameter name"))).

Definition single_run (sim : option (Sim series)) (ind noise noisepar verbose : value)
  (sim_args : option (dict pyobj)) (kwargs : dict value) (g : rng)
  : result (Sim series * rng) :=
  '(new_sim, verbose, g) <- single_run_setup sim ind verbose sim_args g ;;
  noisepar <- match noisepar with
              | VNone => guess_noisepar sim
              | _ => Ok noisepar
              end ;;
  '(new_sim, nf, g) <- apply_noise new_sim noise noisepar g ;;
  _ <- py_ge verbose (VInt 1) ;;
  new_sim <- foldM (apply_override verbose) kwargs new_sim ;;
  call_run new_sim verbose g.

(** *** multi_run *)

Inductive output : Type :=
| Sims (sims : list (Sim series))
| Combined (output_sim : (Sim series)).

(** The text of the length-mismatch error. *)
Definition length_mismatch (n new_n : Z) : exn :=
  ValueError ("Each entry in iterpars must have the same length, not "
              ++ str_of_Z n ++ " and " ++ str_of_Z new_n).

(** Lines 235-240: the replicate count from the lengths of [iterpars]. *)
Fixpoint iterpars_len (iterpars : dict (list value)) (n : option Z) : result (option Z) :=
  match iterpars with
  | [] => Ok n
  | (key, val) :: rest =>
      let new_n := Z.of_nat (length val) in
      match n with
      | Some m =>
          if negb (new_n =? m) then Err (length_mismatch m new_n)
          else iterpars_len rest (Some new_n)
      | None => iterpars_len rest (Some new_n)
      end
  end.

(** Lines 225-228: the template of the batch. *)
Definition batch_template (sim : option (Sim series)) (sim_args : dict pyobj)
  : result (Sim series) :=
  match sim with
  | None => Sim_new sim_args
  | Some s => Ok s
  end.

(** Lines 225-244: everything before the replicates are dispatched. *)
Definition multi_run_setup (sim : option (Sim series)) (n : Z)
  (iterpars : option (dict (list value))) (sim_args : option (dict pyobj))
  : result (Sim series * dict pyobj * Z * dict (list value)) :=
  let sim_args := match sim_args with None => [] | Some a => a end in
  sim <- batch_template sim sim_args ;;
  '(iterpars, n) <- match iterpars with
                    | None => Ok ([], Some n)
                    | Some ip => n' <- iterpars_len ip None ;; Ok (ip, n')
                    end ;;
  ind <- np_arange n ;;
  let n := match n with Some z => z | None => 0 end in
  let iterkwargs := dict_update [("ind", ind)] iterpars in
  Ok (sim, sim_args, n, iterkwargs).

(** [sc.parallelize(single_run, iterkwargs=..., kwargs=...)], an external
    facility, by its sequential meaning: one call per index, in order, with
    the fixed keywords updated by the index's entry of every sequence.  All
    sequences that [multi_run] passes have one length; when that length is
    zero there is nothing to dispatch, which [sc.parallelize] refuses.
    Each call runs in a process of its own, from the caller's generator
    state, and only the simulation it returns comes back. *)
Definition iterdict (iterkwargs : dict (list value)) (i : nat) : result (dict value) :=
  mapM (fun kv => match nth_error (snd kv) i with
                  | Some v => Ok (fst kv, v)
                  | None => Err (IndexError "list index out of range")
                  end) iterkwargs.

Definition reserved : list string := ["sim"; "ind"; "noise"; "noisepar"; "verbose"; "sim_args"].

Definition not_subscriptable (v : value) : exn :=
  match v with
  | VStr _ => TypeError "string indices must be integers"
  | VInt64 _ => IndexError "invalid index to scalar variable."
  | _ => TypeError ("'" ++ type_name v ++ "' object is not subscriptable")
  end.

Definition rebind (name : string) (kw : dict value) (default : value) : value :=
  match dict_get name kw with Some v => v | None => default end.

Definition call_single_run (sim : Sim series) (noise noisepar verbose : value)
  (sim_args : dict pyobj) (kw : dict value) (g : rng) : result (Sim series * rng) :=
  sim' <- match dict_get "sim" kw with
          | None => Ok (Some sim)
          | Some VNone => Ok None
          | Some v => Err (not_subscriptable v)
          end ;;
  sim_args' <- match dict_get "sim_args" kw, sim' with
               | None, _ => Ok (Some sim_args)
               | Some VNone, _ | Some _, Some _ => Ok None
               | Some v, None =>
                   Err (TypeError ("argument after ** must be a mapping, not "
                                   ++ type_name v))
               end ;;
  single_run sim' (rebind "ind" kw (VInt 0)) (rebind "noise" kw noise)
    (rebind "noisepar" kw noisepar) (rebind "verbose" kw verbose) sim_args'
    (filter (fun kv => negb (existsb (String.eqb (fst kv)) reserved)) kw) g.

Definition nothing_to_parallelize : exn :=
  ValueError "Nothing found to parallelize: please supply an iterarg, iterkwargs, or both".

Definition parallelize (f : dict value -> rng -> result (Sim series * rng))
  (iterkwargs : dict (list value)) (g : rng) : result (list (Sim series)) :=
  let niters := match iterkwargs with
                | [] => O
                | (_, val) :: _ => length val
                end in
  if Nat.eqb niters 0 then Err nothing_to_parallelize
  else mapM (fun i => kw <- iterdict iterkwargs i ;; r <- f kw g ;; Ok (fst r))
            (seq 0 niters).

(** Lines 252-259: the first replicate absorbs the others. *)
Definition combine_sims (sims : list (Sim series)) (n : Z) : result (Sim series) :=
  first <- list_index sims 0 ;;
  let p := dict_set "parallelized" (VInt n) (pars first) in
  old_n <- dict_index "n" p ;;
  new_n <- py_mul "*=" old_n (VInt n) ;;
  let output_sim := with_pars first (dict_set "n" new_n p) in
  foldM (fun out sim =>
           out_people <- attr out "people" (people out) ;;
           sim_people <- attr sim "people" (people sim) ;;
           let out := with_people out (dict_update out_people sim_people) in
           keys <- attr sim "results_keys" (results_keys sim) ;;
           foldM (fun out key =>
                    out_res <- attr out "results" (results out) ;;
                    a <- dict_index key out_res ;;
                    sim_res <- attr sim "results" (results sim) ;;
                    b <- dict_index key sim_res ;;
                    c <- series_add a b ;;
                    Ok (with_results out (dict_set key c out_res)))
                 keys out)
        (tl sims) output_sim.

(** [multi_run]; its own [kwargs] are replaced at line 245 and never read. *)
Definition multi_run (sim : option (Sim series)) (n : Z) (noise noisepar : value)
  (iterpars : option (dict (list value))) (verbose : value)
  (sim_args : option (dict pyobj)) (combine : bool) (kwargs : dict value) (g : rng)
  : result output :=
  '(sim, sim_args, n, iterkwargs) <- multi_run_setup sim n iterpars sim_args ;;
  sims <- parallelize (call_single_run sim noise noisepar verbose sim_args) iterkwargs g ;;
  if negb combine then Ok (Sims sims)
  else output_sim <- combine_sims sims n ;; Ok (Combined output_sim).


(** *** The accessors and hooks of Sim, and Person *)

(** [Person(pars)], which is [ParsObj.__init__]. *)
Definition Person_new (new_pars : pyobj) : result Person :=
  d <- ParsObj_init new_pars ;; Ok (mkPerson d).

(** [Sim.n]: [len(self.people)]. *)
Definition Sim_n (self : Sim series) : result Z :=
  people_ <- attr self "people" (people self) ;; Ok (Z.of_nat (length people_)).

(** [int(x)] of a number: a float is truncated towards zero. *)
Definition py_int (x : num) : Z :=
  match x with
  | NInt z => z
  | NFloat q => Z.quot (Qnum q) (Zpos (Qden q))
  end.

(** [np.arange(x)] of a number: the integers below [x] from [0], as floats
    when [x] is one and as [int64] otherwise. *)
Definition np_arange_num (x : num) : list value :=
  match x with
  | NInt z => map (fun i => VInt64 (Z.of_nat i)) (seq 0 (Z.to_nat z))
  | NFloat q => map (fun i => VFloat (inject_Z (Z.of_nat i)))
                    (seq 0 (Z.to_nat (Qceiling q)))
  end.

(** [self['n_days'] + 1], the argument of [npts] and [tvec].  A sum with an
    [int] that does not raise is a number: the last branch is never taken. *)
Definition n_days_plus_1 (self : Sim series) : result num :=
  n_days <- Sim_getitem self "n_days" ;;
  total <- py_add "+" n_days (VInt 1) ;;
  match as_num total with
  | Some x => Ok x
  | None => Err (unsupported "+" n_days (VInt 1))
  end.

(** [Sim.npts] *)
Definition npts (self : Sim series) : result Z :=
  x <- n_days_plus_1 self ;; Ok (py_int x).

(** [Sim.tvec] *)
Definition tvec (self : Sim series) : result (list value) :=
  x <- n_days_plus_1 self ;; Ok (np_arange_num x).

(** The lifecycle hooks of the base class. *)
Definition init_results (self : Sim series) : result (Sim series) := Err NotImplementedError.
Definition init_people (self : Sim series) : result (Sim series) := Err NotImplementedError.
Definition summary_stats (self : Sim series) : result value := Err NotImplementedError.
Definition Sim_run (self : Sim series) : result (Sim series) := Err NotImplementedError.
Definition likelihood (self : Sim series) : result value := Err NotImplementedError.
Definition plot (self : Sim series) : result value := Err NotImplementedError.
Definition plot_people (self : Sim series) : result value := Err NotImplementedError.

(** Two simulation objects that differ at most in the values of their
    parameters. *)
Definition same_frame (a b : Sim series) : Prop :=
  sim_cls a = sim_cls b /\ dict_keys (pars a) = dict_keys (pars b) /\
  people a = people b /\ uids a = uids b /\
  results a = results b /\ results_keys a = results_keys b.


(** [includes s t]: the text [s] occurs in the text [t]. *)
Definition includes (s t : string) : Prop := exists a b, t = a ++ s ++ b.

(** The verbosity a replicate runs with: the argument, or the template's
    [verbose] parameter when the argument is [None] (lines 173-174). *)
Definition resolve_verbose (p : dict value) (verbose : value) : option value :=
  match verbose with
  | VNone => dict_get "verbose" p
  | _ => Some verbose
  end.

(** Every sequence of [iterpars] has length [m]. *)
Definition uniform (m : nat) (iterpars : dict (list value)) : Prop :=
  Forall (fun kv => length (snd kv) = m) iterpars.

(** ** Properties *)

(** *** The error monad and dictionaries *)

Lemma bind_err {A B : Type} (m : result A) (k : A -> result B) (e : exn) :
  m = Err e -> bind m k = Err e.
Proof. intros ->. reflexivity. Qed.


Lemma mapM_length {A B : Type} (f : A -> result B) (l : list A) (r : list B) :
  mapM f l = Ok r -> length r = length l.
Proof.
  revert r. induction l as [|x l IH]; simpl; intros r H.
  - injection H as <-. reflexivity.
  - destruct (f x) as [y|e]; simpl in H; [|discriminate H].
    destruct (mapM f l) as [ys|e]; simpl in H; [|discriminate H].
    injection H as <-. simpl. f_equal. apply IH. reflexivity.
Qed.

Lemma mapM_nth {A B : Type} (f : A -> result B) (l : list A) (r : list B) :
  mapM f l = Ok r ->
  forall i x, nth_error l i = Some x -> exists y, nth_error r i = Some y /\ f x = Ok y.
Proof.
  revert r. induction l as [|a l IH]; simpl; intros r H i x Hi.
  - destruct i; discriminate Hi.
  - destruct (f a) as [y|e] eqn:Hfa; simpl in H; [|discriminate H].
    destruct (mapM f l) as [ys|e]; simpl in H; [|discriminate H].
    injection H as <-. destruct i as [|i]; simpl in *.
    + injection Hi as <-. exists y. split; [reflexivity | exact Hfa].
    + apply (IH ys eq_refl i x Hi).
Qed.


Lemma foldM_invariant {A B : Type} (P : A -> Prop) (f : A -> B -> result A)
  (l : list B) :
  (forall a x a', P a -> f a x = Ok a' -> P a') ->
  forall a a', P a -> foldM f l a = Ok a' -> P a'.
Proof.
  intros Hstep. induction l as [|x l IH]; simpl; intros a a' Ha H.
  - injection H as <-. exact Ha.
  - destruct (f a x) as [a1|e] eqn:E; simpl in H; [|discriminate H].
    apply (IH a1 a' (Hstep a x a1 Ha E) H).
Qed.

Section DictFacts.
Context {V : Type}.
Implicit Types (d upd : dict V) (k : string) (v : V).

Lemma dict_get_set_same k v d : dict_get k (dict_set k v d) = Some v.
Proof.
  induction d as [|[k' v'] d IH]; simpl.
  - rewrite String.eqb_refl. reflexivity.
  - destruct (String.eqb k k') eqn:E; simpl; rewrite E; [reflexivity | exact IH].
Qed.

Lemma dict_get_set_other k k' v d :
  k' <> k -> dict_get k' (dict_set k v d) = dict_get k' d.
Proof.
  intros Hne. induction d as [|[k0 v0] d IH]; simpl.
  - destruct (String.eqb_spec k' k); [contradiction | reflexivity].
  - destruct (String.eqb_spec k k0) as [->|Hk]; simpl.
    + destruct (String.eqb_spec k' k0); [contradiction | reflexivity].
    + destruct (String.eqb k' k0); [reflexivity | exact IH].
Qed.

Lemma dict_mem_set k k' v d :
  dict_mem k' (dict_set k v d) = String.eqb k' k || dict_mem k' d.
Proof.
  unfold dict_mem. destruct (String.eqb_spec k' k) as [->|Hne]; simpl.
  - rewrite dict_get_set_same. reflexivity.
  - rewrite dict_get_set_other by exact Hne. reflexivity.
Qed.

Lemma dict_mem_cons k k' v d :
  dict_mem k ((k', v) :: d) = String.eqb k k' || dict_mem k d.
Proof.
  unfold dict_mem. simpl. destruct (String.eqb k k'); reflexivity.
Qed.

Lemma dict_keys_set_present k v d :
  dict_mem k d = true -> dict_keys (dict_set k v d) = dict_keys d.
Proof.
  unfold dict_mem. induction d as [|[k' v'] d IH]; simpl; intros H.
  - discriminate H.
  - destruct (String.eqb k k'); simpl; [reflexivity|].
    f_equal. apply IH. exact H.
Qed.

Lemma dict_keys_set_absent k v d :
  dict_mem k d = false -> dict_keys (dict_set k v d) = (dict_keys d ++ [k])%list.
Proof.
  unfold dict_mem. induction d as [|[k' v'] d IH]; simpl; intros H.
  - reflexivity.
  - destruct (String.eqb k k'); simpl; [discriminate H|].
    f_equal. apply IH. exact H.
Qed.

Lemma dict_mem_In k d : dict_mem k d = true <-> In k (dict_keys d).
Proof.
  unfold dict_mem. induction d as [|[k' v'] d IH]; simpl.
  - split; [discriminate | contradiction].
  - destruct (String.eqb_spec k k') as [->|Hne].
    + split; [left; reflexivity | reflexivity].
    + rewrite IH. split; [right; assumption | intros [E|H]; [congruence | exact H]].
Qed.

Lemma dict_mem_update k d upd :
  dict_mem k (dict_update d upd) = dict_mem k d || dict_mem k upd.
Proof.
  unfold dict_update. revert d. induction upd as [|[k' v'] upd IH]; simpl; intros d.
  - rewrite orb_false_r. reflexivity.
  - rewrite IH, dict_mem_set, dict_mem_cons.
    destruct (String.eqb k k'), (dict_mem k d), (dict_mem k upd); reflexivity.
Qed.

Lemma dict_get_update_absent k d upd :
  dict_mem k upd = false -> dict_get k (dict_update d upd) = dict_get k d.
Proof.
  unfold dict_update, dict_mem. revert d.
  induction upd as [|[k' v'] upd IH]; simpl; intros d H.
  - reflexivity.
  - destruct (String.eqb_spec k k') as [->|Hne]; [discriminate H|].
    rewrite IH by exact H. apply dict_get_set_other. exact Hne.
Qed.

Lemma dict_get_update_present k v d upd :
  NoDup (dict_keys upd) -> dict_get k upd = Some v ->
  dict_get k (dict_update d upd) = Some v.
Proof.
  unfold dict_update. revert d.
  induction upd as [|[k' v'] upd IH]; simpl; intros d Hnd H.
  - discriminate H.
  - inversion Hnd as [|? ? Hnotin Hnd']; subst.
    destruct (String.eqb_spec k k') as [->|Hne].
    + injection H as ->.
      change (dict_get k' (dict_update (dict_set k' v d) upd) = Some v).
      rewrite dict_get_update_absent.
      * apply dict_get_set_same.
      * destruct (dict_mem k' upd) eqn:E; [|reflexivity].
        apply dict_mem_In in E. contradiction.
    + apply IH; assumption.
Qed.




End DictFacts.

(** *** The parameter store *)

Lemma setitem_present (p : dict value) (key : string) (v : value) :
  dict_mem key p = true -> __setitem__ p key v = Ok (dict_set key v p).
Proof. unfold __setitem__. intros ->. reflexivity. Qed.

Lemma setitem_absent (p : dict value) (key : string) (v : value) :
  dict_mem key p = false -> exists e, __setitem__ p key v = Err e.
Proof.
  unfold __setitem__. intros ->.
  destruct (suggest key (dict_keys p)) as [sg|e]; cbn [bind]; eexists; reflexivity.
Qed.

Lemma setitem_keys (p p' : dict value) (key : string) (v : value) :
  __setitem__ p key v = Ok p' -> dict_keys p' = dict_keys p.
Proof.
  destruct (dict_mem key p) eqn:E; intros H.
  - rewrite (setitem_present p key v E) in H.
    injection H as <-. apply dict_keys_set_present. exact E.
  - destruct (setitem_absent p key v E) as [e He]. rewrite He in H. discriminate H.
Qed.

Lemma getitem_present (p : dict value) (key : string) (v : value) :
  dict_get key p = Some v -> __getitem__ p key = Ok v.
Proof. unfold __getitem__, dict_index. intros ->. reflexivity. Qed.

Lemma append_assoc (a b c : string) : (a ++ b) ++ c = a ++ (b ++ c).
Proof. induction a as [|x a IH]; simpl; [reflexivity | rewrite IH; reflexivity]. Qed.

Lemma append_nil_r (a : string) : a ++ "" = a.
Proof. induction a as [|x a IH]; simpl; [reflexivity | rewrite IH; reflexivity]. Qed.

Lemma combine_sims_parallelized (sims : list (Sim series)) (n : Z) (out : Sim series) :
  combine_sims sims n = Ok out ->
  dict_get "parallelized" (pars out) = Some (VInt n).
Proof.
  unfold combine_sims.
  destruct (list_index sims 0) as [first|e]; cbn [bind]; [|discriminate].
  destruct (dict_index "n" (dict_set "parallelized" (VInt n) (pars first)))
    as [old_n|e]; cbn [bind]; [|discriminate].
  destruct (py_mul "*=" old_n (VInt n)) as [new_n|e]; cbn [bind]; [|discriminate].
  set (p := dict_set "n" new_n (dict_set "parallelized" (VInt n) (pars first))).
  intros H.
  assert (Hp : pars out = p).
  { refine (foldM_invariant (fun a => pars a = p) _ _ _ (with_pars first p) _
              eq_refl H).
    intros a sim a' Ha.
    destruct (attr a "people" (people a)) as [op|e]; cbn [bind]; [|discriminate].
    destruct (attr sim "people" (people sim)) as [sp|e]; cbn [bind]; [|discriminate].
    destruct (attr sim "results_keys" (results_keys sim)) as [keys|e]; cbn [bind];
      [|discriminate].
    intros Hin.
    refine (foldM_invariant (fun a => pars a = p) _ _ _
              (with_people a (dict_update op sp)) _ Ha Hin).
    intros b key b' Hb.
    destruct (attr b "results" (results b)) as [br|e]; cbn [bind]; [|discriminate].
    destruct (dict_index key br) as [x|e]; cbn [bind]; [|discriminate].
    destruct (attr sim "results" (results sim)) as [sr|e]; cbn [bind]; [|discriminate].
    destruct (dict_index key sr) as [y|e]; cbn [bind]; [|discriminate].
    destruct (series_add x y) as [c|e]; cbn [bind]; [|discriminate].
    intros E. injection E as <-. exact Hb. }
  rewrite Hp. unfold p. rewrite dict_get_set_other by discriminate.
  apply dict_get_set_same.
Qed.

(** Equality of texts built by concatenation around literal pieces. *)
Ltac str_eq :=
  rewrite ?append_nil_r, ?append_assoc; simpl;
  rewrite ?append_nil_r, ?append_assoc; reflexivity.

(** C2, as the code has it: [update_pars] on an existing store is a plain
    [dict.update].  It keeps every key the store has, gives the keys named
    in the update their new values and leaves the other values alone, but a
    key of the update that the store lacks is added without any error.  Only
    item assignment is guarded: when it succeeds the key list is unchanged.
    The combine path of [multi_run] writes to the dict directly and records
    [parallelized] in the combined simulation. *)
Theorem C2_update_pars_keys (p upd : dict value) :
  update_pars (Some p) (PDict upd) = Ok (dict_update p upd) /\
  (forall k, dict_mem k (dict_update p upd) = dict_mem k p || dict_mem k upd) /\
  (forall k, dict_mem k upd = false -> dict_get k (dict_update p upd) = dict_get k p) /\
  (NoDup (dict_keys upd) ->
   forall k v, dict_get k upd = Some v -> dict_get k (dict_update p upd) = Some v) /\
  (forall k v p', __setitem__ p k v = Ok p' -> dict_keys p' = dict_keys p) /\
  (forall sims n out,
     combine_sims sims n = Ok out -> dict_get "parallelized" (pars out) = Some (VInt n)).
Proof.
  split; [reflexivity|].
  split; [intros k; apply dict_mem_update|].
  split; [intros k; apply dict_get_update_absent|].
  split; [intros Hnd k v; apply dict_get_update_present; exact Hnd|].
  split; [intros k v p'; apply setitem_keys|].
  apply combine_sims_parallelized.
Qed.

(** C3, as the code has it: writing a key the store lacks first asks
    [sc.suggest]; if that raises (as it does on a store without keys), its
    error is the error of the write; if it returns, the write raises a
    [KeyError] whose message quotes the suggestion when it is a non-empty
    one and otherwise lists every valid key.  Reading such a key is a bare
    dict lookup, whose [KeyError] carries the key and nothing else. *)
Theorem C3_unknown_key (p : dict value) (key : string) :
  dict_mem key p = false ->
  __getitem__ p key = Err (KeyError (VStr key)) /\
  forall v,
    (forall e, suggest key (dict_keys p) = Err e -> __setitem__ p key v = Err e) /\
    (forall sg, suggest key (dict_keys p) = Ok sg ->
       exists msg,
         __setitem__ p key v = Err (KeyError (VStr msg)) /\
         includes ("Key " ++ key ++ " not found") msg /\
         (forall s, sg = Some s -> s <> "" ->
                    includes ("did you mean " ++ dquote ++ s ++ dquote) msg) /\
         (sg = None \/ sg = Some "" ->
          includes ("available keys:" ++ newline
                    ++ String.concat newline (dict_keys p)) msg)).
Proof.
  intros H. split.
  - unfold __getitem__, dict_index. unfold dict_mem in H.
    destruct (dict_get key p); [discriminate H | reflexivity].
  - intros v. unfold __setitem__. rewrite H. split.
    + intros e He. rewrite He. reflexivity.
    + intros sg Hsg. rewrite Hsg. cbn [bind].
      destruct sg as [[|c s']|].
      * eexists. split; [reflexivity|]. split; [|split].
        -- exists "", ("; available keys:" ++ newline
                       ++ String.concat newline (dict_keys p)). str_eq.
        -- intros s Hs Hne. injection Hs as <-. contradiction.
        -- intros _. exists ("Key " ++ key ++ " not found; "), "". str_eq.
      * eexists. split; [reflexivity|]. split; [|split].
        -- exists "", ("; did you mean " ++ dquote ++ String c s' ++ dquote ++ "?").
           str_eq.
        -- intros s Hs _. injection Hs as <-.
           exists ("Key " ++ key ++ " not found; "), "?". str_eq.
        -- intros [Hn|Hn]; discriminate Hn.
      * eexists. split; [reflexivity|]. split; [|split].
        -- exists "", ("; available keys:" ++ newline
                       ++ String.concat newline (dict_keys p)). str_eq.
        -- intros s Hs. discriminate Hs.
        -- intros _. exists ("Key " ++ key ++ " not found; "), "". str_eq.
Qed.

(** *** Seeding *)

(** C5: a seed together with [randomize=True] is refused; without either,
    the stored seed is read back and fed to the generator, the simulation
    unchanged; a seed alone replaces the stored one, and later calls
    without arguments reuse it. *)
Theorem C5_set_seed (self : Sim series) (g : rng) :
  (forall s, s <> VNone ->
     set_seed self s true g
     = Err (ValueError "You can supply a seed or set randomize=True, but not both")) /\
  (forall stored, dict_get "seed" (pars self) = Some stored ->
     set_seed self VNone false g = Ok (self, cov_ut_set_seed stored g)) /\
  (forall s, s <> VNone -> dict_mem "seed" (pars self) = true ->
     exists self',
       set_seed self s false g = Ok (self', cov_ut_set_seed s g) /\
       dict_get "seed" (pars self') = Some s /\
       (forall k, k <> "seed" -> dict_get k (pars self') = dict_get k (pars self)) /\
       forall g', set_seed self' VNone false g' = Ok (self', cov_ut_set_seed s g')).
Proof.
  split; [|split].
  - intros s Hs. unfold set_seed. destruct s; try reflexivity. contradiction.
  - intros stored H. unfold set_seed, Sim_getitem. simpl.
    rewrite (getitem_present _ _ _ H). reflexivity.
  - intros s Hs Hmem.
    exists (with_pars self (dict_set "seed" s (pars self))).
    assert (Hset : set_seed self s false g
                   = Ok (with_pars self (dict_set "seed" s (pars self)),
                         cov_ut_set_seed s g)).
    { unfold set_seed, Sim_setitem. rewrite (setitem_present _ _ _ Hmem).
      destruct s; try reflexivity. contradiction. }
    split; [exact Hset|]. split; [apply dict_get_set_same|]. split.
    + intros k Hk. simpl. apply dict_get_set_other. exact Hk.
    + intros g'. unfold set_seed, Sim_getitem. simpl.
      rewrite (getitem_present _ _ s) by apply dict_get_set_same. reflexivity.
Qed.

(** *** The noise multiplier *)

Lemma Qgtb_true (x y : Q) : Qgtb x y = true <-> (y < x)%Q.
Proof.
  unfold Qgtb. rewrite negb_true_iff. split; intros H.
  - apply Qnot_le_lt. intros Hle. apply Qle_bool_iff in Hle. congruence.
  - destruct (Qle_bool x y) eqn:E; [|reflexivity].
    apply Qle_bool_iff in E. exfalso. apply (Qlt_not_le _ _ H). exact E.
Qed.

Lemma Qgtb_false (x y : Q) : Qgtb x y = false <-> (x <= y)%Q.
Proof.
  unfold Qgtb. rewrite negb_false_iff. apply Qle_bool_iff.
Qed.

Lemma noisefactor_pos (d : Q) : (0 < noisefactor d)%Q.
Proof.
  unfold noisefactor. destruct (Qgtb d 0) eqn:E.
  - apply Qgtb_true in E. lra.
  - apply Qgtb_false in E. unfold Qdiv. rewrite Qmult_1_l.
    apply Qinv_lt_0_compat. lra.
Qed.

(** C8: the multiplier is strictly positive for every draw; it is [1+d] for
    a positive draw and [1/(1-d)] otherwise, and it is the factor that
    [single_run] applies to the noise parameter. *)
Theorem C8_noisefactor (d : Q) :
  (0 < noisefactor d)%Q /\
  ((0 < d)%Q -> noisefactor d = (1 + d)%Q) /\
  ((d <= 0)%Q -> noisefactor d = (1 / (1 - d))%Q) /\
  (forall (new_sim new_sim' : Sim series) noise noisepar g g' nf,
     apply_noise new_sim noise noisepar g = Ok (new_sim', nf, g') ->
     exists noiseval key old new,
       py_mul_float noise (fst (np_random_normal g)) = Ok noiseval /\
       nf = noisefactor noiseval /\ (0 < nf)%Q /\
       noisepar = VStr key /\ dict_get key (pars new_sim) = Some old /\
       py_mul "*=" old (VFloat nf) = Ok new /\
       dict_get key (pars new_sim') = Some new).
Proof.
  split; [apply noisefactor_pos|]. split; [|split].
  - intros H. unfold noisefactor. apply Qgtb_true in H. rewrite H. reflexivity.
  - intros H. unfold noisefactor. apply Qgtb_false in H. rewrite H. reflexivity.
  - intros new_sim new_sim' noise noisepar g g' nf. unfold apply_noise.
    destruct (np_random_normal g) as [draw g1]. simpl fst.
    destruct (py_mul_float noise draw) as [noiseval|e]; simpl; [|discriminate].
    destruct noisepar as [| | | | |key]; simpl; try discriminate.
    unfold Sim_getitem, __getitem__, dict_index.
    destruct (dict_get key (pars new_sim)) as [old|] eqn:Hold; simpl;
      [|discriminate].
    destruct (py_mul "*=" old (VFloat (noisefactor noiseval))) as [new|e] eqn:Hmul;
      simpl; [|discriminate].
    unfold Sim_setitem.
    rewrite setitem_present by (unfold dict_mem; rewrite Hold; reflexivity).
    simpl. intros H. injection H as <- <- <-.
    exists noiseval, key, old, new.
    repeat split; try reflexivity; try assumption.
    + apply noisefactor_pos.
    + simpl. apply dict_get_set_same.
Qed.

(** *** Agents by position *)

Lemma list_index_outside {A : Type} (l : list A) (i : Z) :
  i < - Z.of_nat (length l) \/ Z.of_nat (length l) <= i ->
  list_index l i = Err (IndexError "list index out of range").
Proof.
  intros H. unfold list_index.
  destruct (Z.ltb_spec i 0).
  - destruct (Z.leb_spec 0 (i + Z.of_nat (length l))); [lia | reflexivity].
  - destruct (Z.leb_spec 0 i); [|lia].
    destruct (Z.ltb_spec i (Z.of_nat (length l))); [lia | reflexivity].
Qed.

Lemma list_index_inside {A : Type} (l : list A) (i : Z) :
  - Z.of_nat (length l) <= i < Z.of_nat (length l) ->
  exists a,
    nth_error l (Z.to_nat (if i <? 0 then i + Z.of_nat (length l) else i)) = Some a /\
    list_index l i = Ok a.
Proof.
  intros H. unfold list_index.
  set (j := if i <? 0 then i + Z.of_nat (length l) else i).
  assert (Hj : 0 <= j < Z.of_nat (length l)).
  { unfold j. destruct (Z.ltb_spec i 0); lia. }
  destruct (Z.leb_spec 0 j); [|lia].
  destruct (Z.ltb_spec j (Z.of_nat (length l))); [|lia]. simpl.
  destruct (nth_error l (Z.to_nat j)) as [a|] eqn:E.
  - exists a. split; reflexivity.
  - apply nth_error_None in E. lia.
Qed.

(** C10: the positions of the identifier table are Python's, [-len <= ind <
    len], a negative one counting from the end.  Outside them the lookup
    raises [IndexError] (and a simulation without the [people] or [uids]
    attribute raises [AttributeError] at every index); inside, the lookup
    returns the agent that [people] maps the identifier at that position to. *)
Theorem C10_get_person (self : Sim series) (ind : Z) :
  (forall ppl us, people self = Some ppl -> uids self = Some us ->
     ind < - Z.of_nat (length us) \/ Z.of_nat (length us) <= ind ->
     get_person self ind = Err (IndexError "list index out of range")) /\
  (people self = None \/ uids self = None ->
     exists msg, get_person self ind = Err (AttributeError msg)) /\
  (forall ppl us, people self = Some ppl -> uids self = Some us ->
     0 <= ind < Z.of_nat (length us) ->
     exists uid, nth_error us (Z.to_nat ind) = Some uid /\
       get_person self ind = dict_index uid ppl /\
       forall agent, dict_get uid ppl = Some agent -> get_person self ind = Ok agent) /\
  (forall ppl us, people self = Some ppl -> uids self = Some us ->
     - Z.of_nat (length us) <= ind < 0 ->
     exists uid, nth_error us (Z.to_nat (ind + Z.of_nat (length us))) = Some uid /\
       get_person self ind = dict_index uid ppl /\
       forall agent, dict_get uid ppl = Some agent -> get_person self ind = Ok agent).
Proof.
  split; [|split; [|split]].
  - intros ppl us Hp Hu Hout. unfold get_person. rewrite Hp, Hu. simpl.
    rewrite (list_index_outside us ind Hout). reflexivity.
  - intros H. unfold get_person.
    destruct (people self) as [ppl|]; simpl.
    + destruct H as [H|H]; [discriminate H|]. rewrite H. simpl.
      eexists. reflexivity.
    + eexists. reflexivity.
  - intros ppl us Hp Hu Hin. unfold get_person. rewrite Hp, Hu. simpl.
    destruct (list_index_inside us ind) as [uid [Hnth Hidx]]; [lia|].
    destruct (Z.ltb_spec ind 0); [lia|].
    exists uid. rewrite Hidx. simpl. split; [exact Hnth|]. split; [reflexivity|].
    intros agent Ha. unfold dict_index. rewrite Ha. reflexivity.
  - intros ppl us Hp Hu Hin. unfold get_person. rewrite Hp, Hu. simpl.
    destruct (list_index_inside us ind) as [uid [Hnth Hidx]]; [lia|].
    destruct (Z.ltb_spec ind 0); [|lia].
    exists uid. rewrite Hidx. simpl. split; [exact Hnth|]. split; [reflexivity|].
    intros agent Ha. unfold dict_index. rewrite Ha. reflexivity.
Qed.

(** *** Guessing the noise parameter *)


Lemma single_run_not_guessed (sim : option (Sim series)) (e : exn)
  (ind noise verbose : value) sim_args kwargs (g : rng) new_sim v g' :
  single_run_setup sim ind verbose sim_args g = Ok (new_sim, v, g') ->
  guess_noisepar sim = Err e ->
  single_run sim ind noise VNone verbose sim_args kwargs g = Err e.
Proof.
  intros Hsetup H. unfold single_run. rewrite Hsetup. cbn [bind].
  rewrite H. reflexivity.
Qed.


(** C4: without a template the guess dereferences [None].  Such a call
    never returns a simulation, and whenever the replicate was built from
    [sim_args] and seeded, whatever candidates it holds, the call ends in
    the [AttributeError] of [None.pars]. *)
Theorem C4_guess_without_template (ind noise verbose : value)
  (sim_args : option (dict pyobj)) (kwargs : dict value) (g : rng) :
  guess_noisepar None = Err (AttributeError "'NoneType' object has no attribute 'pars'") /\
  (exists e, single_run None ind noise VNone verbose sim_args kwargs g = Err e) /\
  (forall new_sim v g',
     single_run_setup None ind verbose sim_args g = Ok (new_sim, v, g') ->
     single_run None ind noise VNone verbose sim_args kwargs g
     = Err (AttributeError "'NoneType' object has no attribute 'pars'")).
Proof.
  split; [reflexivity|]. split.
  - unfold single_run.
    destruct (single_run_setup None ind verbose sim_args g) as [[[ns v] g']|e];
      simpl; eexists; reflexivity.
  - intros new_sim v g' H.
    apply (single_run_not_guessed None _ ind noise verbose sim_args kwargs g new_sim v g' H).
    reflexivity.
Qed.

(** *** A replicate, step by step *)

Lemma set_seed_stored (self : Sim series) (stored : value) (g : rng) :
  dict_get "seed" (pars self) = Some stored ->
  set_seed self VNone false g = Ok (self, cov_ut_set_seed stored g).
Proof.
  intros H. unfold set_seed, Sim_getitem.
  rewrite (getitem_present _ _ _ H). reflexivity.
Qed.

Lemma single_run_setup_ok (s : Sim series) (ind verbose sd sd' v : value)
  (sim_args : option (dict pyobj)) (g : rng) :
  dict_get "seed" (pars s) = Some sd ->
  py_add "+=" sd ind = Ok sd' ->
  resolve_verbose (pars s) verbose = Some v ->
  single_run_setup (Some s) ind verbose sim_args g
  = Ok (with_pars s (dict_set "seed" sd' (pars s)), v, cov_ut_set_seed sd' g).
Proof.
  intros Hsd Hadd Hv. unfold single_run_setup. cbn [bind].
  assert (Hverb : match verbose with
                  | VNone => Sim_getitem s "verbose"
                  | _ => Ok verbose
                  end = Ok v).
  { unfold resolve_verbose in Hv. unfold Sim_getitem.
    destruct verbose; try (injection Hv as <-; reflexivity).
    apply getitem_present. exact Hv. }
  rewrite Hverb. cbn [bind].
  unfold Sim_getitem at 1. rewrite (getitem_present _ _ _ Hsd). cbn [bind].
  rewrite Hadd. cbn [bind].
  unfold Sim_setitem. rewrite setitem_present
    by (unfold dict_mem; rewrite Hsd; reflexivity).
  cbn [bind].
  rewrite (set_seed_stored _ sd') by (simpl; apply dict_get_set_same).
  reflexivity.
Qed.

Lemma py_mul_float_numeric (a : value) (x : Q) :
  is_numeric a = true -> exists q, py_mul_float a x = Ok q.
Proof.
  unfold is_numeric, py_mul_float. destruct (as_num a) as [n|]; intros H.
  - eexists. reflexivity.
  - discriminate H.
Qed.

Lemma py_mul_numeric_float (a : value) (x : Q) :
  is_numeric a = true -> exists q, py_mul "*=" a (VFloat x) = Ok (VFloat q).
Proof.
  destruct a as [|b|z|z|q|s]; simpl; intros H; try discriminate H;
    eexists; reflexivity.
Qed.

Lemma apply_noise_ok (new_sim : Sim series) (noise old : value) (key : string) (g : rng) :
  is_numeric noise = true ->
  dict_get key (pars new_sim) = Some old ->
  is_numeric old = true ->
  exists new nf,
    py_mul "*=" old (VFloat nf) = Ok new /\
    apply_noise new_sim noise (VStr key) g
    = Ok (with_pars new_sim (dict_set key new (pars new_sim)), nf,
          snd (np_random_normal g)).
Proof.
  intros Hnoise Hold Hnum. unfold apply_noise.
  destruct (np_random_normal g) as [draw g1]. simpl snd.
  destruct (py_mul_float_numeric noise draw Hnoise) as [noiseval Hnv].
  rewrite Hnv. cbn [bind].
  destruct (py_mul_numeric_float old (noisefactor noiseval) Hnum) as [q Hq].
  exists (VFloat q), (noisefactor noiseval). split; [exact Hq|].
  unfold Sim_getitem. rewrite (getitem_present _ _ _ Hold). cbn [bind].
  rewrite Hq. cbn [bind].
  unfold Sim_setitem. rewrite setitem_present
    by (unfold dict_mem; rewrite Hold; reflexivity).
  reflexivity.
Qed.

(** The override loop: every key must be a parameter; the value is stored
    only when [verbose >= 1]. *)
Lemma apply_override_known (verbose : value) (new_sim : Sim series)
  (key : string) (val : value) (loud : bool) :
  dict_mem key (pars new_sim) = true ->
  py_ge verbose (VInt 1) = Ok loud ->
  apply_override verbose new_sim (key, val)
  = Ok (if loud then with_pars new_sim (dict_set key val (pars new_sim)) else new_sim).
Proof.
  intros Hmem Hge. unfold apply_override. rewrite Hmem, Hge. cbn [bind].
  destruct loud; [|reflexivity].
  unfold Sim_setitem. rewrite (setitem_present _ _ _ Hmem). reflexivity.
Qed.



Lemma overrides_quiet (verbose : value) (kwargs : dict value) (new_sim : Sim series) :
  py_ge verbose (VInt 1) = Ok false ->
  (forall k, In k (dict_keys kwargs) -> dict_mem k (pars new_sim) = true) ->
  foldM (apply_override verbose) kwargs new_sim = Ok new_sim.
Proof.
  intros Hge. induction kwargs as [|[key val] kwargs IH]; intros Hkeys.
  - reflexivity.
  - cbn [foldM].
    rewrite (apply_override_known verbose new_sim key val false)
      by (try exact Hge; apply Hkeys; left; reflexivity).
    cbn [bind]. apply IH. intros k Hk. apply Hkeys. right. exact Hk.
Qed.

(** Everything up to the override loop, on a template that has a numeric
    seed, a verbosity and a numeric noise parameter. *)
Lemma single_run_before_overrides (s : Sim series)
  (ind noise noisepar verbose sd sd' v old : value) (loud : bool) (key : string)
  (sim_args : option (dict pyobj)) (g : rng) :
  dict_get "seed" (pars s) = Some sd ->
  py_add "+=" sd ind = Ok sd' ->
  resolve_verbose (pars s) verbose = Some v ->
  py_ge v (VInt 1) = Ok loud ->
  noisepar = VStr key \/ noisepar = VNone /\ guess_noisepar (Some s) = Ok (VStr key) ->
  key <> "seed" ->
  dict_get key (pars s) = Some old ->
  is_numeric old = true ->
  is_numeric noise = true ->
  exists s2 g1,
    sim_cls s2 = sim_cls s /\
    dict_keys (pars s2) = dict_keys (pars s) /\
    dict_get "seed" (pars s2) = Some sd' /\
    forall kwargs,
      single_run (Some s) ind noise noisepar verbose sim_args kwargs g
      = (new_sim <- foldM (apply_override v) kwargs s2 ;; call_run new_sim v g1).
Proof.
  intros Hsd Hadd Hv Hge Hnp Hkey Hold Hnum Hnoise.
  set (s1 := with_pars s (dict_set "seed" sd' (pars s))).
  assert (Hk1 : dict_keys (pars s1) = dict_keys (pars s)).
  { simpl. apply dict_keys_set_present. unfold dict_mem. rewrite Hsd. reflexivity. }
  assert (Hnp' : match noisepar with
                 | VNone => guess_noisepar (Some s)
                 | _ => Ok noisepar
                 end = Ok (VStr key)).
  { destruct Hnp as [->|[-> Hg]]; [reflexivity | exact Hg]. }
  destruct (apply_noise_ok s1 noise old key (cov_ut_set_seed sd' g) Hnoise)
    as [new [nf [_ Hnoise']]]; [|exact Hnum|].
  { simpl. rewrite dict_get_set_other by exact Hkey. exact Hold. }
  set (s2 := with_pars s1 (dict_set key new (pars s1))) in *.
  exists s2, (snd (np_random_normal (cov_ut_set_seed sd' g))).
  split; [reflexivity|]. split; [|split].
  - rewrite <- Hk1. simpl. apply dict_keys_set_present. apply dict_mem_In.
    change (In key (dict_keys (pars s1))). rewrite Hk1. apply dict_mem_In.
    unfold dict_mem. rewrite Hold. reflexivity.
  - simpl. rewrite dict_get_set_other by (intros E; apply Hkey; symmetry; exact E).
    apply dict_get_set_same.
  - intros kwargs. unfold single_run.
    rewrite (single_run_setup_ok s ind verbose sd sd' v sim_args g Hsd Hadd Hv).
    cbn [bind]. rewrite Hnp'. cbn [bind]. fold s1. rewrite Hnoise'. cbn [bind].
    rewrite Hge. reflexivity.
Qed.


(** The defect behind C1, in general: on a quiet replicate ([verbose >= 1]
    false) the overrides are checked against the parameters and then
    dropped; the call is the call without them. *)
Lemma single_run_quiet_drops_overrides (s : Sim series)
  (ind noise noisepar verbose sd sd' v old : value) (key : string)
  (sim_args : option (dict pyobj)) (kwargs : dict value) (g : rng) :
  dict_get "seed" (pars s) = Some sd ->
  py_add "+=" sd ind = Ok sd' ->
  resolve_verbose (pars s) verbose = Some v ->
  py_ge v (VInt 1) = Ok false ->
  noisepar = VStr key \/ noisepar = VNone /\ guess_noisepar (Some s) = Ok (VStr key) ->
  key <> "seed" ->
  dict_get key (pars s) = Some old ->
  is_numeric old = true ->
  is_numeric noise = true ->
  (forall k, In k (dict_keys kwargs) -> dict_mem k (pars s) = true) ->
  single_run (Some s) ind noise noisepar verbose sim_args kwargs g
  = single_run (Some s) ind noise noisepar verbose sim_args [] g.
Proof.
  intros Hsd Hadd Hv Hge Hnp Hkey Hold Hnum Hnoise Hkw.
  destruct (single_run_before_overrides s ind noise noisepar verbose sd sd' v old
              false key sim_args g Hsd Hadd Hv Hge Hnp Hkey Hold Hnum Hnoise)
    as [s2 [g1 [_ [Hk2 [_ Hrun]]]]].
  rewrite (Hrun kwargs), (Hrun []).
  rewrite (overrides_quiet v kwargs s2 Hge); [reflexivity|].
  intros k Hk. apply dict_mem_In. rewrite Hk2. apply dict_mem_In.
  apply Hkw. exact Hk.
Qed.

(** *** Sums with a replicate index *)



Lemma wrap64_range (z : Z) : - 2 ^ 63 <= wrap64 z < 2 ^ 63.
Proof.
  unfold wrap64.
  pose proof (Z.mod_pos_bound (z + 2 ^ 63) (2 ^ 64)) as H. lia.
Qed.


(** *** Batches *)

Lemma parallelize_dispatches (f : dict value -> rng -> result (Sim series * rng))
  (key : string) (val : list value) (rest : dict (list value)) (g : rng) :
  val <> [] ->
  parallelize f ((key, val) :: rest) g
  = mapM (fun i => kw <- iterdict ((key, val) :: rest) i ;; r <- f kw g ;; Ok (fst r))
         (seq 0 (length val)).
Proof.
  intros H. unfold parallelize. destruct val; [contradiction | reflexivity].
Qed.

Lemma parallelize_nothing (f : dict value -> rng -> result (Sim series * rng))
  (key : string) (rest : dict (list value)) (g : rng) :
  parallelize f ((key, []) :: rest) g = Err nothing_to_parallelize.
Proof. reflexivity. Qed.

Lemma arange_nonempty (n : nat) :
  (0 < n)%nat -> map (fun i => VInt64 (Z.of_nat i)) (seq 0 n) <> [].
Proof. intros H. destruct n; [lia | discriminate]. Qed.

Lemma nth_error_arange (n i : nat) :
  (i < n)%nat ->
  nth_error (map (fun i => VInt64 (Z.of_nat i)) (seq 0 n)) i = Some (VInt64 (Z.of_nat i)).
Proof.
  intros H. rewrite nth_error_map, nth_error_seq.
  destruct (Nat.ltb_spec i n); [reflexivity | lia].
Qed.

Lemma call_single_run_ind (s : Sim series) (noise noisepar verbose ind : value)
  (sim_args : dict pyobj) (g : rng) :
  call_single_run s noise noisepar verbose sim_args [("ind", ind)] g
  = single_run (Some s) ind noise noisepar verbose (Some sim_args) [] g.
Proof. reflexivity. Qed.

Lemma multi_run_setup_count (s : Sim series) (n : Z) (sim_args : option (dict pyobj)) :
  multi_run_setup (Some s) n None sim_args
  = Ok (s, match sim_args with None => [] | Some a => a end, n,
        [("ind", map (fun i => VInt64 (Z.of_nat i)) (seq 0 (Z.to_nat n)))]).
Proof. reflexivity. Qed.


Lemma iterpars_len_uniform (m : nat) (iterpars : dict (list value)) (n : option Z) :
  uniform m iterpars -> n = None \/ n = Some (Z.of_nat m) ->
  iterpars_len iterpars n
  = Ok (match iterpars with [] => n | _ => Some (Z.of_nat m) end).
Proof.
  intros Hu. revert n. induction Hu as [|[key val] rest Hval Hrest IH]; intros n Hn.
  - reflexivity.
  - simpl in Hval. cbn [iterpars_len]. rewrite Hval.
    assert (Hnext : iterpars_len rest (Some (Z.of_nat m)) = Ok (Some (Z.of_nat m))).
    { rewrite IH by (right; reflexivity). destruct rest; reflexivity. }
    destruct Hn as [->| ->]; [exact Hnext|].
    rewrite Z.eqb_refl. exact Hnext.
Qed.


Lemma dict_update_head {V : Type} (P : V -> Prop) (upd d : dict V) (k0 : string) (v0 : V) :
  P v0 -> (forall kv, In kv upd -> P (snd kv)) ->
  exists v rest, dict_update ((k0, v0) :: d) upd = (k0, v) :: rest /\ P v.
Proof.
  unfold dict_update. revert d v0.
  induction upd as [|[k1 v1] upd IH]; intros d v0 H0 Hupd; cbn [fold_left].
  - exists v0, d. split; [reflexivity | exact H0].
  - cbn [dict_set fst snd]. destruct (String.eqb k1 k0).
    + apply IH.
      * apply (Hupd (k1, v1)). left. reflexivity.
      * intros kv Hkv. apply Hupd. right. exact Hkv.
    + apply IH; [exact H0|]. intros kv Hkv. apply Hupd. right. exact Hkv.
Qed.






(** ** Further properties of the code *)

(** *** The parameter store, again *)

(** X1: item assignment succeeds exactly on a key the store has; the value
    then reads back, every other key reads as it did, and the keys keep
    their order. *)
Theorem X1_setitem_getitem (p p' : dict value) (key : string) (v : value) :
  __setitem__ p key v = Ok p' ->
  dict_mem key p = true /\
  __getitem__ p' key = Ok v /\
  (forall k, k <> key -> __getitem__ p' k = __getitem__ p k) /\
  dict_keys p' = dict_keys p.
Proof.
  intros H. assert (Hmem : dict_mem key p = true).
  { destruct (dict_mem key p) eqn:E; [reflexivity|].
    destruct (setitem_absent p key v E) as [e He]. rewrite He in H. discriminate H. }
  rewrite (setitem_present _ _ _ Hmem) in H. injection H as <-.
  split; [exact Hmem|]. split; [|split].
  - apply getitem_present. apply dict_get_set_same.
  - intros k Hk. unfold __getitem__, dict_index.
    rewrite dict_get_set_other by exact Hk. reflexivity.
  - apply dict_keys_set_present. exact Hmem.
Qed.

Lemma find_none_all {A : Type} (f : A -> bool) (l : list A) :
  find f l = None <-> forall x, In x l -> f x = false.
Proof.
  induction l as [|a l IH]; simpl.
  - split; [intros _ x [] | reflexivity].
  - destruct (f a) eqn:E.
    + split; [discriminate|]. intros H. rewrite (H a (or_introl eq_refl)) in E.
      discriminate E.
    + rewrite IH. split.
      * intros H x [<-|Hx]; [exact E | apply H; exact Hx].
      * intros H x Hx. apply H. right. exact Hx.
Qed.

(** X2: [Sim] called with the keywords of [sim_args] succeeds exactly when
    [pars] is the only keyword and its value is a dict; the object is then a
    base-class simulation holding that dict, with no people, identifiers or
    results. *)
Theorem X2_Sim_new (sim_args : dict pyobj) (s : Sim series) :
  Sim_new sim_args = Ok s <->
  (forall k, In k (dict_keys sim_args) -> k = "pars") /\
  exists d, dict_get "pars" sim_args = Some (PDict d) /\
            s = mkSim BaseSim d None None None None.
Proof.
  unfold Sim_new. split.
  - destruct (find (fun kv => negb (String.eqb (fst kv) "pars")) sim_args)
      as [[k o]|] eqn:Ef; [discriminate|].
    intros H. split.
    + intros k Hk. unfold dict_keys in Hk. apply in_map_iff in Hk.
      destruct Hk as [kv [<- Hkv]].
      pose proof (proj1 (find_none_all _ _) Ef kv Hkv) as Hf. simpl in Hf.
      apply negb_false_iff in Hf. apply String.eqb_eq. exact Hf.
    + destruct (dict_get "pars" sim_args) as [[d|v]|]; try discriminate H.
      exists d. split; [reflexivity|]. simpl in H. injection H as <-. reflexivity.
  - intros [Hall [d [Hd ->]]].
    assert (Ef : find (fun kv => negb (String.eqb (fst kv) "pars")) sim_args = None).
    { apply find_none_all. intros kv Hkv. apply negb_false_iff. apply String.eqb_eq.
      apply Hall. unfold dict_keys. apply in_map. exact Hkv. }
    rewrite Ef, Hd. reflexivity.
Qed.

Lemma dict_set_same_value {V : Type} (k : string) (v : V) (d : dict V) :
  dict_get k d = Some v -> dict_set k v d = d.
Proof.
  induction d as [|[k' v'] d IH]; simpl; intros H.
  - discriminate H.
  - destruct (String.eqb k k').
    + injection H as ->. reflexivity.
    + rewrite IH by exact H. reflexivity.
Qed.

Lemma dict_get_In_NoDup {V : Type} (k : string) (v : V) (d : dict V) :
  NoDup (dict_keys d) -> In (k, v) d -> dict_get k d = Some v.
Proof.
  induction d as [|[k' v'] d IH]; simpl; intros Hnd Hin.
  - contradiction.
  - inversion Hnd as [|? ? Hnotin Hnd']; subst.
    destruct Hin as [E|Hin].
    + injection E as -> ->. rewrite String.eqb_refl. reflexivity.
    + destruct (String.eqb_spec k k') as [->|Hne].
      * exfalso. apply Hnotin. unfold dict_keys.
        apply (in_map fst _ _ Hin).
      * apply IH; assumption.
Qed.

Lemma dict_update_keys {V : Type} (upd p : dict V) :
  NoDup (dict_keys upd) ->
  dict_keys (dict_update p upd)
  = (dict_keys p ++ filter (fun k => negb (dict_mem k p)) (dict_keys upd))%list.
Proof.
  unfold dict_update. revert p.
  induction upd as [|[k v] upd IH]; simpl; intros p Hnd.
  - rewrite app_nil_r. reflexivity.
  - inversion Hnd as [|? ? Hnotin Hnd']; subst.
    rewrite (IH _ Hnd').
    assert (Hfilter : filter (fun k0 => negb (dict_mem k0 (dict_set k v p))) (dict_keys upd)
                      = filter (fun k0 => negb (dict_mem k0 p)) (dict_keys upd)).
    { apply filter_ext_in. intros k0 Hk0. rewrite dict_mem_set.
      destruct (String.eqb_spec k0 k) as [->|_]; [contradiction | reflexivity]. }
    rewrite Hfilter. destruct (dict_mem k p) eqn:E; simpl.
    + rewrite (dict_keys_set_present _ _ _ E). reflexivity.
    + rewrite (dict_keys_set_absent _ _ _ E), <- app_assoc. reflexivity.
Qed.

(** X3: [update_pars] on an existing store keeps the store's keys where
    they are and appends the new ones in the order of the update; applying
    the same update a second time changes nothing. *)
Theorem X3_update_pars_order (p upd : dict value) :
  NoDup (dict_keys upd) ->
  (exists p', update_pars (Some p) (PDict upd) = Ok p' /\
     dict_keys p'
     = (dict_keys p ++ filter (fun k => negb (dict_mem k p)) (dict_keys upd))%list /\
     update_pars (Some p') (PDict upd) = Ok p') /\
  update_pars (Some p) (PDict []) = Ok p.
Proof.
  intros Hnd. split; [|reflexivity].
  exists (dict_update p upd). split; [reflexivity|]. split.
  - apply dict_update_keys. exact Hnd.
  - simpl. f_equal.
    assert (Hstep : forall l d : dict value,
               (forall kv, In kv l -> dict_get (fst kv) d = Some (snd kv)) ->
               dict_update d l = d).
    { unfold dict_update. induction l as [|[k v] l IHl]; simpl; intros d Hd.
      - reflexivity.
      - rewrite (dict_set_same_value k v d) by (apply (Hd (k, v)); left; reflexivity).
        apply IHl. intros kv Hkv. apply Hd. right. exact Hkv. }
    apply Hstep. intros [k v] Hkv. simpl.
    apply dict_get_update_present; [exact Hnd|].
    apply dict_get_In_NoDup; assumption.
Qed.

(** *** Seeding a simulation that has no seed *)

(** X4: on a simulation without a [seed] parameter only [randomize=True]
    works: it reseeds from [None] and leaves the simulation as it is, while
    [set_seed()] raises the bare [KeyError] of the read and [set_seed(s)]
    fails in the guarded write, with the error of [sc.suggest] if that
    raises (as on a simulation without parameters) and with the
    [KeyError] that says the key was not found otherwise; so no [seed]
    parameter appears. *)
Theorem X4_set_seed_without_seed (self : Sim series) (g : rng) :
  dict_mem "seed" (pars self) = false ->
  set_seed self VNone true g = Ok (self, cov_ut_set_seed VNone g) /\
  set_seed self VNone false g = Err (KeyError (VStr "seed")) /\
  forall s, s <> VNone ->
    (forall e, suggest "seed" (dict_keys (pars self)) = Err e ->
               set_seed self s false g = Err e) /\
    (forall sg, suggest "seed" (dict_keys (pars self)) = Ok sg ->
       exists msg, set_seed self s false g = Err (KeyError (VStr msg)) /\
                   includes "Key seed not found" msg).
Proof.
  intros Hmem. split; [reflexivity|]. split.
  - unfold set_seed, Sim_getitem, __getitem__, dict_index. unfold dict_mem in Hmem.
    destruct (dict_get "seed" (pars self)); [discriminate Hmem | reflexivity].
  - intros s Hs. unfold set_seed, Sim_setitem, __setitem__. rewrite Hmem. split.
    + intros e He. rewrite He. destruct s; try contradiction; reflexivity.
    + intros sg Hsg. rewrite Hsg.
      destruct sg as [[|c s']|];
        destruct s; try contradiction; cbn [bind];
        eexists; (split; [reflexivity|]); eexists "", _; simpl; reflexivity.
Qed.

(** *** The noise multiplier, again *)

Lemma noisefactor_nonpos (d : Q) : (d <= 0)%Q -> noisefactor d = (1 / (1 - d))%Q.
Proof. intros H. unfold noisefactor. apply Qgtb_false in H. rewrite H. reflexivity. Qed.

Lemma noisefactor_positive (d : Q) : (0 < d)%Q -> noisefactor d = (1 + d)%Q.
Proof. intros H. unfold noisefactor. apply Qgtb_true in H. rewrite H. reflexivity. Qed.

(** Read as exact fractions, a draw and its negation give reciprocal
    multipliers. *)
Lemma noisefactor_reciprocal (d : Q) :
  (noisefactor d * noisefactor (- d) == 1)%Q.
Proof.
  destruct (Qlt_le_dec 0 d) as [Hpos|Hle].
  - rewrite (noisefactor_positive d Hpos), (noisefactor_nonpos (- d)) by lra.
    field. lra.
  - rewrite (noisefactor_nonpos d Hle).
    destruct (Qlt_le_dec 0 (- d)) as [Hneg|Hzero].
    + rewrite (noisefactor_positive (- d) Hneg). field. lra.
    + rewrite (noisefactor_nonpos (- d) Hzero).
      assert (Hd : (d == 0)%Q) by lra. rewrite Hd. reflexivity.
Qed.

Lemma noisefactor_le_1 (d : Q) : (d <= 0)%Q -> (noisefactor d <= 1)%Q.
Proof.
  intros H. rewrite (noisefactor_nonpos d H).
  apply Qle_shift_div_r; lra.
Qed.

Lemma noisefactor_gt_1 (d : Q) : (0 < d)%Q -> (1 < noisefactor d)%Q.
Proof. intros H. rewrite (noisefactor_positive d H). lra. Qed.

(** X5: the multiplier is at most [1] for a draw that is not positive and
    at least [1] for one that is not negative, and it never decreases when
    the draw grows. *)
Theorem X5_noisefactor_monotone (d d' : Q) :
  ((d <= 0)%Q -> (0 < noisefactor d <= 1)%Q) /\
  ((0 <= d)%Q -> (1 <= noisefactor d)%Q) /\
  ((d <= d')%Q -> (noisefactor d <= noisefactor d')%Q).
Proof.
  split; [|split].
  - intros H. split; [apply noisefactor_pos | apply noisefactor_le_1; exact H].
  - intros H. destruct (Qlt_le_dec 0 d) as [Hpos|Hneg].
    + apply Qlt_le_weak. apply noisefactor_gt_1. exact Hpos.
    + rewrite (noisefactor_nonpos d Hneg). apply Qle_shift_div_l; lra.
  - intros Hle. destruct (Qlt_le_dec 0 d) as [Hpos|Hneg].
    + rewrite (noisefactor_positive d Hpos), (noisefactor_positive d') by lra. lra.
    + destruct (Qlt_le_dec 0 d') as [Hpos'|Hneg'].
      * apply Qle_trans with 1%Q; [apply noisefactor_le_1; exact Hneg|].
        apply Qlt_le_weak. apply noisefactor_gt_1. exact Hpos'.
      * rewrite (noisefactor_nonpos d Hneg), (noisefactor_nonpos d' Hneg').
        apply Qle_shift_div_r; [lra|].
        assert (E : (1 / (1 - d') * (1 - d) == (1 - d) / (1 - d'))%Q) by (field; lra).
        rewrite E. apply Qle_shift_div_l; lra.
Qed.

(** X6: with a noise magnitude of zero the multiplier is [1] whatever the
    draw, so a replicate keeps the value of its noise parameter; the value
    is stored as a float all the same, also when it was an [int]. *)
Theorem X6_zero_noise (new_sim new_sim' : Sim series) (noise noisepar : value)
  (x : num) (g g' : rng) (nf : Q) :
  as_num noise = Some x -> (num_Q x == 0)%Q ->
  apply_noise new_sim noise noisepar g = Ok (new_sim', nf, g') ->
  (nf == 1)%Q /\
  exists key old y q,
    noisepar = VStr key /\ dict_get key (pars new_sim) = Some old /\
    as_num old = Some y /\
    dict_get key (pars new_sim') = Some (VFloat q) /\ (q == num_Q y)%Q.
Proof.
  intros Hx Hzero. unfold apply_noise.
  destruct (np_random_normal g) as [draw g1].
  unfold py_mul_float. rewrite Hx. cbn [bind].
  assert (Hnf : (noisefactor (num_Q x * draw) == 1)%Q).
  { rewrite noisefactor_nonpos.
    - rewrite Hzero. field.
    - rewrite Hzero. lra. }
  destruct noisepar as [| | | | |key]; cbn [bind]; try discriminate.
  unfold Sim_getitem, __getitem__, dict_index.
  destruct (dict_get key (pars new_sim)) as [old|] eqn:Hold; cbn [bind]; [|discriminate].
  destruct (py_mul "*=" old (VFloat (noisefactor (num_Q x * draw)))) as [new|e] eqn:Hmul;
    cbn [bind]; [|discriminate].
  unfold Sim_setitem.
  rewrite setitem_present by (unfold dict_mem; rewrite Hold; reflexivity).
  cbn [bind]. intros H. injection H as <- <- <-.
  split; [exact Hnf|].
  destruct old as [|b|z|z|q|s]; simpl in Hmul; try discriminate Hmul;
    injection Hmul as <-;
    eexists key, _, _, _;
    (split; [reflexivity|]); (split; [exact Hold|]); (split; [reflexivity|]);
    (split; [simpl; apply dict_get_set_same|]);
    simpl num_Q; rewrite Hnf; ring.
Qed.

(** *** What a replicate is when its hook is called *)

Lemma same_frame_refl (a : Sim series) : same_frame a a.
Proof. repeat split. Qed.

Lemma same_frame_trans (a b c : Sim series) :
  same_frame a b -> same_frame b c -> same_frame a c.
Proof.
  intros [H1 [H2 [H3 [H4 [H5 H6]]]]] [K1 [K2 [K3 [K4 [K5 K6]]]]].
  repeat split; etransitivity; eassumption.
Qed.

Lemma same_frame_set (a : Sim series) (key : string) (v : value) :
  dict_mem key (pars a) = true ->
  same_frame a (with_pars a (dict_set key v (pars a))).
Proof.
  intros H. repeat split. simpl. symmetry. apply dict_keys_set_present. exact H.
Qed.

Lemma Sim_setitem_frame (a a' : Sim series) (key : string) (v : value) :
  Sim_setitem a key v = Ok a' ->
  dict_mem key (pars a) = true /\ a' = with_pars a (dict_set key v (pars a)).
Proof.
  intros H. unfold Sim_setitem in H.
  destruct (dict_mem key (pars a)) eqn:E.
  - rewrite (setitem_present _ _ _ E) in H. cbn [bind] in H.
    injection H as <-. split; reflexivity.
  - destruct (setitem_absent (pars a) key v E) as [e He].
    rewrite He in H. discriminate H.
Qed.

Lemma Sim_new_base (sim_args : dict pyobj) (s : Sim series) :
  Sim_new sim_args = Ok s -> sim_cls s = BaseSim.
Proof.
  unfold Sim_new.
  destruct (find _ sim_args) as [[k o]|]; [discriminate|].
  destruct (dict_get "pars" sim_args) as [p|]; [|discriminate].
  destruct (ParsObj_init p) as [d|e]; cbn [bind]; [|discriminate].
  intros H. injection H as <-. reflexivity.
Qed.

Lemma single_run_setup_inv (sim : option (Sim series)) (ind verbose v : value)
  (sim_args : option (dict pyobj)) (g g' : rng) (new_sim : Sim series) :
  single_run_setup sim ind verbose sim_args g = Ok (new_sim, v, g') ->
  exists tmpl sd sd',
    batch_template sim (match sim_args with None => [] | Some a => a end) = Ok tmpl /\
    dict_get "seed" (pars tmpl) = Some sd /\
    py_add "+=" sd ind = Ok sd' /\
    resolve_verbose (pars tmpl) verbose = Some v /\
    new_sim = with_pars tmpl (dict_set "seed" sd' (pars tmpl)) /\
    g' = cov_ut_set_seed sd' g.
Proof.
  unfold single_run_setup, batch_template.
  destruct (match sim with
            | None => Sim_new match sim_args with None => [] | Some a => a end
            | Some s => Ok s
            end) as [tmpl|e]; cbn [bind]; [|discriminate].
  destruct (match verbose with
            | VNone => Sim_getitem tmpl "verbose"
            | _ => Ok verbose
            end) as [v0|e] eqn:Hv; cbn [bind]; [|discriminate].
  unfold Sim_getitem at 1. unfold __getitem__, dict_index.
  destruct (dict_get "seed" (pars tmpl)) as [sd|] eqn:Hsd; cbn [bind]; [|discriminate].
  destruct (py_add "+=" sd ind) as [sd'|e] eqn:Hadd; cbn [bind]; [|discriminate].
  unfold Sim_setitem.
  rewrite setitem_present by (unfold dict_mem; rewrite Hsd; reflexivity).
  cbn [bind].
  rewrite (set_seed_stored _ sd') by (simpl; apply dict_get_set_same).
  cbn [bind]. intros H. injection H as <- <- <-.
  exists tmpl, sd, sd'. repeat split; try reflexivity; try assumption.
  unfold resolve_verbose. unfold Sim_getitem, __getitem__, dict_index in Hv.
  destruct verbose; try (injection Hv as <-; reflexivity).
  destruct (dict_get "verbose" (pars tmpl)); [|discriminate Hv].
  injection Hv as <-. reflexivity.
Qed.

Lemma apply_noise_inv (new_sim new_sim' : Sim series) (noise noisepar : value)
  (g g' : rng) (nf : Q) :
  apply_noise new_sim noise noisepar g = Ok (new_sim', nf, g') ->
  exists key new,
    noisepar = VStr key /\ dict_mem key (pars new_sim) = true /\
    new_sim' = with_pars new_sim (dict_set key new (pars new_sim)) /\
    g' = snd (np_random_normal g).
Proof.
  unfold apply_noise. destruct (np_random_normal g) as [draw g1]. simpl snd.
  destruct (py_mul_float noise draw) as [noiseval|e]; cbn [bind]; [|discriminate].
  destruct noisepar as [| | | | |key]; cbn [bind]; try discriminate.
  unfold Sim_getitem, __getitem__, dict_index.
  destruct (dict_get key (pars new_sim)) as [old|] eqn:Hold; cbn [bind]; [|discriminate].
  destruct (py_mul "*=" old (VFloat (noisefactor noiseval))) as [new|e];
    cbn [bind]; [|discriminate].
  destruct (Sim_setitem new_sim key new) as [s'|e] eqn:Hset; cbn [bind]; [|discriminate].
  intros H. injection H as <- <- <-.
  destruct (Sim_setitem_frame _ _ _ _ Hset) as [Hmem ->].
  exists key, new. repeat split. exact Hmem.
Qed.

Lemma apply_override_frame (verbose : value) (a a' : Sim series) (kv : string * value) :
  apply_override verbose a kv = Ok a' -> same_frame a a'.
Proof.
  destruct kv as [key val]. unfold apply_override.
  destruct (dict_mem key (pars a)) eqn:Hmem; [|discriminate].
  destruct (py_ge verbose (VInt 1)) as [[|]|e]; cbn [bind]; try discriminate.
  - intros H. destruct (Sim_setitem_frame _ _ _ _ H) as [_ ->].
    apply same_frame_set. exact Hmem.
  - intros H. injection H as <-. apply same_frame_refl.
Qed.

Lemma single_run_inversion (sim : option (Sim series))
  (ind noise noisepar verbose : value) (sim_args : option (dict pyobj))
  (kwargs : dict value) (g : rng) (r : Sim series * rng) :
  single_run sim ind noise noisepar verbose sim_args kwargs g = Ok r ->
  exists tmpl name new_sim v sd sd',
    sim = Some tmpl /\ sim_cls tmpl = DerivedSim name /\
    same_frame tmpl new_sim /\
    resolve_verbose (pars tmpl) verbose = Some v /\
    dict_get "seed" (pars tmpl) = Some sd /\
    py_add "+=" sd ind = Ok sd' /\
    derived_run new_sim v (snd (np_random_normal (cov_ut_set_seed sd' g))) = Ok r.
Proof.
  unfold single_run.
  destruct (single_run_setup sim ind verbose sim_args g) as [[[s1 v] g1]|e] eqn:Hsetup;
    cbn [bind]; [|discriminate].
  destruct (single_run_setup_inv _ _ _ _ _ _ _ _ Hsetup)
    as [tmpl [sd [sd' [Htmpl [Hsd [Hadd [Hv [-> ->]]]]]]]].
  destruct (match noisepar with
            | VNone => guess_noisepar sim
            | _ => Ok noisepar
            end) as [np|e]; cbn [bind]; [|discriminate].
  destruct (apply_noise _ noise np _) as [[[s2 nf] g2]|e] eqn:Hnoise;
    cbn [bind]; [|discriminate].
  destruct (apply_noise_inv _ _ _ _ _ _ _ Hnoise) as [key [new [_ [Hmem [-> ->]]]]].
  destruct (py_ge v (VInt 1)) as [loud|e]; cbn [bind]; [|discriminate].
  match goal with
  | |- context [foldM ?f kwargs ?a] =>
      destruct (foldM f kwargs a) as [s3|e] eqn:Hfold; cbn [bind]; [|discriminate]
  end.
  assert (Hframe : same_frame tmpl s3).
  { refine (foldM_invariant (same_frame tmpl) _ _ _ _ _ _ Hfold).
    - intros a kv a' Ha Hstep. apply (same_frame_trans _ a); [exact Ha|].
      apply (apply_override_frame _ _ _ _ Hstep).
    - apply (same_frame_trans _ (with_pars tmpl (dict_set "seed" sd' (pars tmpl)))).
      + apply same_frame_set. unfold dict_mem. rewrite Hsd. reflexivity.
      + apply same_frame_set. exact Hmem. }
  unfold call_run. destruct Hframe as [Hcls Hrest]. rewrite <- Hcls.
  destruct (sim_cls tmpl) as [|name] eqn:Ecls; [discriminate|].
  intros Hrun.
  assert (Hsim : sim = Some tmpl).
  { destruct sim as [s|]; simpl in Htmpl.
    - injection Htmpl as ->. reflexivity.
    - apply Sim_new_base in Htmpl. rewrite Htmpl in Ecls. discriminate Ecls. }
  exists tmpl, name, s3, v, sd, sd'.
  split; [exact Hsim|]. split; [exact Ecls|].
  split; [split; [rewrite Ecls; exact Hcls | exact Hrest]|].
  repeat split; assumption.
Qed.

(** X7: whenever [single_run] returns, it was given a template of a
    specialized class and returns what that class's [run] hook returned.  The
    hook was called on a replicate that differs from the template at most in
    the values of its parameters (same class, same parameter names in the
    same order, same people, identifiers and results), with the resolved
    verbosity, on a generator reseeded with the template's seed plus [ind]
    and advanced by the one noise draw. *)
Theorem X7_single_run_calls_run (sim : option (Sim series))
  (ind noise noisepar verbose : value) (sim_args : option (dict pyobj))
  (kwargs : dict value) (g : rng) (r : Sim series * rng) :
  single_run sim ind noise noisepar verbose sim_args kwargs g = Ok r ->
  exists tmpl name new_sim v sd sd',
    sim = Some tmpl /\ sim_cls tmpl = DerivedSim name /\
    same_frame tmpl new_sim /\
    resolve_verbose (pars tmpl) verbose = Some v /\
    dict_get "seed" (pars tmpl) = Some sd /\
    py_add "+=" sd ind = Ok sd' /\
    derived_run new_sim v (snd (np_random_normal (cov_ut_set_seed sd' g))) = Ok r.
Proof. apply single_run_inversion. Qed.

(** X8: without a template, or on a template of the base class, a replicate
    run never returns a simulation, whatever the other arguments: the base
    class has no [run] that takes [verbose]. *)
Theorem X8_base_class_never_runs (sim : option (Sim series))
  (ind noise noisepar verbose : value) (sim_args : option (dict pyobj))
  (kwargs : dict value) (g : rng) :
  sim = None \/ (exists s, sim = Some s /\ sim_cls s = BaseSim) ->
  exists e, single_run sim ind noise noisepar verbose sim_args kwargs g = Err e.
Proof.
  intros Hbase.
  destruct (single_run sim ind noise noisepar verbose sim_args kwargs g) as [r|e] eqn:E.
  - exfalso.
    destruct (single_run_inversion _ _ _ _ _ _ _ _ _ E)
      as [tmpl [name [_ [_ [_ [_ [Hsim [Hcls _]]]]]]]].
    destruct Hbase as [Hnone|[s [Hs Hb]]].
    + rewrite Hnone in Hsim. discriminate Hsim.
    + rewrite Hs in Hsim. injection Hsim as ->. rewrite Hb in Hcls. discriminate Hcls.
  - exists e. reflexivity.
Qed.

(** *** Errors of a replicate run *)


(** X10: a template without a [verbose] parameter fails a replicate run that
    passes no verbosity with [KeyError('verbose')]; a template without a
    [seed] parameter fails every replicate run whose verbosity resolves with
    [KeyError('seed')].  Both come before any noise or override. *)
Theorem X10_missing_verbose_or_seed (s : Sim series)
  (ind noise noisepar verbose : value)
  (sim_args : option (dict pyobj)) (kwargs : dict value) (g : rng) :
  (verbose = VNone -> dict_mem "verbose" (pars s) = false ->
     single_run (Some s) ind noise noisepar verbose sim_args kwargs g
     = Err (KeyError (VStr "verbose"))) /\
  (forall v, resolve_verbose (pars s) verbose = Some v ->
     dict_mem "seed" (pars s) = false ->
     single_run (Some s) ind noise noisepar verbose sim_args kwargs g
     = Err (KeyError (VStr "seed"))).
Proof.
  split.
  - intros -> Hmem. unfold single_run. apply bind_err.
    unfold single_run_setup. cbn [bind]. apply bind_err.
    unfold Sim_getitem, __getitem__, dict_index. unfold dict_mem in Hmem.
    destruct (dict_get "verbose" (pars s)); [discriminate Hmem | reflexivity].
  - intros v Hv Hmem. unfold single_run. apply bind_err.
    unfold single_run_setup. cbn [bind].
    assert (Hverb : match verbose with
                    | VNone => Sim_getitem s "verbose"
                    | _ => Ok verbose
                    end = Ok v).
    { unfold resolve_verbose in Hv. unfold Sim_getitem.
      destruct verbose; try (injection Hv as <-; reflexivity).
      apply getitem_present. exact Hv. }
    rewrite Hverb. cbn [bind]. apply bind_err.
    unfold Sim_getitem, __getitem__, dict_index. unfold dict_mem in Hmem.
    destruct (dict_get "seed" (pars s)); [discriminate Hmem | reflexivity].
Qed.

(** *** The override loop as it behaves *)





(** *** Batches, again *)

Lemma mapM_ext_in {A B : Type} (f h : A -> result B) (l : list A) :
  (forall x, In x l -> f x = h x) -> mapM f l = mapM h l.
Proof.
  induction l as [|a l IH]; simpl; intros H.
  - reflexivity.
  - rewrite (H a (or_introl eq_refl)), IH; [reflexivity|].
    intros x Hx. apply H. right. exact Hx.
Qed.

Lemma mapM_first_error {A B : Type} (f : A -> result B) (l : list A) (i : nat)
  (x : A) (e : exn) :
  nth_error l i = Some x ->
  (forall j y, (j < i)%nat -> nth_error l j = Some y -> exists b, f y = Ok b) ->
  f x = Err e ->
  mapM f l = Err e.
Proof.
  revert i. induction l as [|a l IH]; intros i Hi Hbefore Hx.
  - destruct i; discriminate Hi.
  - destruct i as [|i]; simpl in Hi.
    + injection Hi as ->. simpl. rewrite Hx. reflexivity.
    + simpl. destruct (Hbefore 0%nat a) as [b Hb]; [lia | reflexivity |].
      rewrite Hb. cbn [bind]. rewrite (IH i Hi); [reflexivity | | exact Hx].
      intros j y Hj Hy. apply (Hbefore (S j) y); [lia | exact Hy].
Qed.

Lemma multi_run_replicates (s : Sim series) (n : Z) (noise noisepar verbose : value)
  (sim_args : option (dict pyobj)) (combine : bool) (kwargs : dict value) (g : rng) :
  0 < n ->
  multi_run (Some s) n noise noisepar None verbose sim_args combine kwargs g
  = (sims <- mapM (fun i =>
                     r <- single_run (Some s) (VInt64 (Z.of_nat i)) noise noisepar verbose
                            (Some (match sim_args with None => [] | Some a => a end))
                            [] g ;;
                     Ok (fst r))
                  (seq 0 (Z.to_nat n)) ;;
     if negb combine then Ok (Sims sims)
     else output_sim <- combine_sims sims n ;; Ok (Combined output_sim)).
Proof.
  intros Hn. unfold multi_run. rewrite multi_run_setup_count. cbn [bind].
  rewrite parallelize_dispatches by (apply arange_nonempty; lia).
  rewrite length_map, length_seq.
  f_equal. apply mapM_ext_in. intros i Hi. apply in_seq in Hi.
  unfold iterdict. cbn [mapM snd fst bind].
  rewrite (nth_error_arange (Z.to_nat n) i) by lia. cbn [bind].
  rewrite call_single_run_ind. reflexivity.
Qed.

(** X12: an [iterpars] that is given but empty leaves the replicate count
    undefined: the batch fails in its set-up with the [TypeError] of
    [np.arange(None)], whatever [n] was passed, and dispatches nothing. *)
Theorem X12_empty_iterpars (sim : option (Sim series)) (s : Sim series) (n : Z)
  (noise noisepar verbose : value) (sim_args : option (dict pyobj))
  (combine : bool) (kwargs : dict value) (g : rng) :
  batch_template sim (match sim_args with None => [] | Some a => a end) = Ok s ->
  exists msg,
    multi_run_setup sim n (Some []) sim_args = Err (TypeError msg) /\
    multi_run sim n noise noisepar (Some []) verbose sim_args combine kwargs g
    = Err (TypeError msg).
Proof.
  intros Htmpl. eexists.
  assert (Hsetup : multi_run_setup sim n (Some []) sim_args
                   = Err (TypeError "unsupported operand type(s) for -: 'NoneType' and 'int'")).
  { unfold multi_run_setup. rewrite Htmpl. reflexivity. }
  split; [exact Hsetup|]. unfold multi_run. apply bind_err. exact Hsetup.
Qed.

(** *** Combining replicates *)

Lemma list_index_0 {A : Type} (l : list A) (a : A) :
  list_index l 0 = Ok a -> exists rest, l = a :: rest.
Proof.
  destruct l as [|x l]; unfold list_index; simpl.
  - discriminate.
  - intros H. injection H as ->. exists l. reflexivity.
Qed.

(** The merge of one replicate into the combined simulation (the body of
    the loop at lines 255-258), inverted. *)
Lemma combine_step_inv (out sim out' : Sim series) :
  (out_people <- attr out "people" (people out) ;;
   sim_people <- attr sim "people" (people sim) ;;
   let out := with_people out (dict_update out_people sim_people) in
   keys <- attr sim "results_keys" (results_keys sim) ;;
   foldM (fun out key =>
            out_res <- attr out "results" (results out) ;;
            a <- dict_index key out_res ;;
            sim_res <- attr sim "results" (results sim) ;;
            b <- dict_index key sim_res ;;
            c <- series_add a b ;;
            Ok (with_results out (dict_set key c out_res)))
         keys out) = Ok out' ->
  exists op sp,
    people out = Some op /\ people sim = Some sp /\
    people out' = Some (dict_update op sp) /\
    pars out' = pars out /\ sim_cls out' = sim_cls out /\
    uids out' = uids out /\ results_keys out' = results_keys out.
Proof.
  destruct (people out) as [op|] eqn:Hop; cbn [attr bind]; [|discriminate].
  destruct (people sim) as [sp|] eqn:Hsp; cbn [attr bind]; [|discriminate].
  destruct (attr sim "results_keys" (results_keys sim)) as [keys|e]; cbn [bind];
    [|discriminate].
  intros H. exists op, sp. split; [reflexivity|]. split; [reflexivity|].
  refine (foldM_invariant
            (fun a => people a = Some (dict_update op sp) /\ pars a = pars out /\
                      sim_cls a = sim_cls out /\ uids a = uids out /\
                      results_keys a = results_keys out)
            _ _ _ (with_people out (dict_update op sp)) _ _ H).
  - intros b key b' Hb.
    destruct (attr b "results" (results b)) as [br|e]; cbn [bind]; [|discriminate].
    destruct (dict_index key br) as [x|e]; cbn [bind]; [|discriminate].
    destruct (attr sim "results" (results sim)) as [sr|e]; cbn [bind]; [|discriminate].
    destruct (dict_index key sr) as [y|e]; cbn [bind]; [|discriminate].
    destruct (series_add x y) as [c|e]; cbn [bind]; [|discriminate].
    intros E. injection E as <-. exact Hb.
  - repeat split.
Qed.

Lemma combine_sims_inv (sims : list (Sim series)) (n : Z) (out : Sim series) :
  combine_sims sims n = Ok out ->
  exists first rest old_n new_n,
    sims = first :: rest /\
    dict_get "n" (pars first) = Some old_n /\
    py_mul "*=" old_n (VInt n) = Ok new_n /\
    foldM (fun out sim =>
             out_people <- attr out "people" (people out) ;;
             sim_people <- attr sim "people" (people sim) ;;
             let out := with_people out (dict_update out_people sim_people) in
             keys <- attr sim "results_keys" (results_keys sim) ;;
             foldM (fun out key =>
                      out_res <- attr out "results" (results out) ;;
                      a <- dict_index key out_res ;;
                      sim_res <- attr sim "results" (results sim) ;;
                      b <- dict_index key sim_res ;;
                      c <- series_add a b ;;
                      Ok (with_results out (dict_set key c out_res)))
                   keys out)
          rest
          (with_pars first
             (dict_set "n" new_n (dict_set "parallelized" (VInt n) (pars first))))
    = Ok out.
Proof.
  unfold combine_sims.
  destruct (list_index sims 0) as [first|e] eqn:Hidx; cbn [bind]; [|discriminate].
  destruct (list_index_0 _ _ Hidx) as [rest ->].
  unfold dict_index at 1. rewrite dict_get_set_other by discriminate.
  destruct (dict_get "n" (pars first)) as [old_n|] eqn:Hn; cbn [bind]; [|discriminate].
  destruct (py_mul "*=" old_n (VInt n)) as [new_n|e] eqn:Hmul; cbn [bind];
    [|discriminate].
  intros H. exists first, rest, old_n, new_n.
  split; [reflexivity|]. split; [exact Hn|]. split; [exact Hmul | exact H].
Qed.

(** X13: a combined simulation is the first replicate with [parallelized]
    set to the replicate count and its [n] multiplied by it; every other
    parameter, the class and the identifier table are the first
    replicate's.  People merged in from the other replicates are therefore
    not in the identifier table that [get_person] reads. *)
Theorem X13_combine_keeps_first (sims : list (Sim series)) (n : Z) (out : Sim series) :
  combine_sims sims n = Ok out ->
  exists first rest old_n new_n,
    sims = first :: rest /\
    dict_get "n" (pars first) = Some old_n /\
    py_mul "*=" old_n (VInt n) = Ok new_n /\
    pars out = dict_set "n" new_n (dict_set "parallelized" (VInt n) (pars first)) /\
    (forall k, k <> "n" -> k <> "parallelized" ->
               dict_get k (pars out) = dict_get k (pars first)) /\
    sim_cls out = sim_cls first /\
    uids out = uids first /\
    results_keys out = results_keys first.
Proof.
  intros H.
  destruct (combine_sims_inv _ _ _ H) as [first [rest [old_n [new_n [-> [Hn [Hmul Hfold]]]]]]].
  exists first, rest, old_n, new_n.
  split; [reflexivity|]. split; [exact Hn|]. split; [exact Hmul|].
  set (p := dict_set "n" new_n (dict_set "parallelized" (VInt n) (pars first))) in *.
  assert (Hinv : pars out = p /\ sim_cls out = sim_cls first /\
                 uids out = uids first /\ results_keys out = results_keys first).
  { refine (foldM_invariant
              (fun a => pars a = p /\ sim_cls a = sim_cls first /\
                        uids a = uids first /\ results_keys a = results_keys first)
              _ _ _ (with_pars first p) _ _ Hfold).
    - intros a sim a' [Ha1 [Ha2 [Ha3 Ha4]]] Hstep.
      destruct (combine_step_inv _ _ _ Hstep) as [op [sp [_ [_ [_ [K1 [K2 [K3 K4]]]]]]]].
      repeat split; congruence.
    - repeat split. }
  destruct Hinv as [Hp [Hc [Hu Hr]]].
  split; [exact Hp|]. split; [|repeat split; assumption].
  intros k Hk1 Hk2. rewrite Hp. unfold p.
  rewrite !dict_get_set_other by assumption. reflexivity.
Qed.

Lemma combine_fold_people (l : list (Sim series)) :
  forall a out : Sim series,
    foldM (fun out sim =>
             out_people <- attr out "people" (people out) ;;
             sim_people <- attr sim "people" (people sim) ;;
             let out := with_people out (dict_update out_people sim_people) in
             keys <- attr sim "results_keys" (results_keys sim) ;;
             foldM (fun out key =>
                      out_res <- attr out "results" (results out) ;;
                      a <- dict_index key out_res ;;
                      sim_res <- attr sim "results" (results sim) ;;
                      b <- dict_index key sim_res ;;
                      c <- series_add a b ;;
                      Ok (with_results out (dict_set key c out_res)))
                   keys out)
          l a = Ok out ->
    forall sim ppl uid,
      sim = a \/ In sim l -> people sim = Some ppl -> dict_mem uid ppl = true ->
      exists outp, people out = Some outp /\ dict_mem uid outp = true.
Proof.
  induction l as [|x l IH]; intros a out Hfold sim ppl uid Hin Hppl Huid.
  - simpl in Hfold. injection Hfold as <-. destruct Hin as [->|[]].
    exists ppl. split; assumption.
  - cbn [foldM] in Hfold.
    match type of Hfold with
    | bind ?m _ = _ => destruct m as [a1|e] eqn:Hstep; cbn [bind] in Hfold;
                         [|discriminate Hfold]
    end.
    destruct (combine_step_inv _ _ _ Hstep) as [op [sp [Hop [Hsp [Hp1 _]]]]].
    assert (Hin1 : dict_mem uid (dict_update op sp) = true ->
                   exists outp, people out = Some outp /\ dict_mem uid outp = true).
    { intros Hm. apply (IH a1 out Hfold a1 (dict_update op sp) uid);
        [left; reflexivity | exact Hp1 | exact Hm]. }
    destruct Hin as [->|[->|Hin]].
    + apply Hin1. rewrite dict_mem_update. rewrite Hop in Hppl. injection Hppl as ->.
      rewrite Huid. reflexivity.
    + apply Hin1. rewrite dict_mem_update. rewrite Hsp in Hppl. injection Hppl as ->.
      rewrite Huid. apply orb_true_r.
    + apply (IH a1 out Hfold sim ppl uid); [right; exact Hin | exact Hppl | exact Huid].
Qed.

(** X14: the people of a combined simulation include every person of every
    replicate that was combined. *)
Theorem X14_combine_people (sims : list (Sim series)) (n : Z) (out : Sim series) :
  combine_sims sims n = Ok out ->
  forall sim ppl uid,
    In sim sims -> people sim = Some ppl -> dict_mem uid ppl = true ->
    exists outp, people out = Some outp /\ dict_mem uid outp = true.
Proof.
  intros H sim ppl uid Hin Hppl Huid.
  destruct (combine_sims_inv _ _ _ H) as [first [rest [old_n [new_n [-> [_ [_ Hfold]]]]]]].
  destruct Hin as [<-|Hin].
  - apply (combine_fold_people rest _ out Hfold
             (with_pars first
                (dict_set "n" new_n (dict_set "parallelized" (VInt n) (pars first))))
             ppl uid); [left; reflexivity | exact Hppl | exact Huid].
  - apply (combine_fold_people rest _ out Hfold sim ppl uid);
      [right; exact Hin | exact Hppl | exact Huid].
Qed.

Lemma combine_results_fold (sim : Sim series) (keys : list string) :
  NoDup keys ->
  forall b out : Sim series,
    foldM (fun out key =>
             out_res <- attr out "results" (results out) ;;
             a <- dict_index key out_res ;;
             sim_res <- attr sim "results" (results sim) ;;
             b <- dict_index key sim_res ;;
             c <- series_add a b ;;
             Ok (with_results out (dict_set key c out_res)))
          keys b = Ok out ->
    (forall key, In key keys ->
       exists br sr ro x y c,
         results b = Some br /\ results sim = Some sr /\ results out = Some ro /\
         dict_get key br = Some x /\ dict_get key sr = Some y /\
         series_add x y = Ok c /\ dict_get key ro = Some c) /\
    (forall key br, ~ In key keys -> results b = Some br ->
       exists ro, results out = Some ro /\ dict_get key ro = dict_get key br).
Proof.
  induction 1 as [|key0 keys Hnotin Hnd IH]; intros b out Hfold.
  - simpl in Hfold. injection Hfold as <-. split.
    + intros key [].
    + intros key br _ Hbr. exists br. split; [exact Hbr | reflexivity].
  - cbn [foldM] in Hfold.
    destruct (results b) as [br|] eqn:Hbr; cbn [attr bind] in Hfold; [|discriminate Hfold].
    unfold dict_index at 1 in Hfold.
    destruct (dict_get key0 br) as [x|] eqn:Hx; cbn [bind] in Hfold; [|discriminate Hfold].
    destruct (results sim) as [sr|] eqn:Hsr; cbn [attr bind] in Hfold; [|discriminate Hfold].
    unfold dict_index at 1 in Hfold.
    destruct (dict_get key0 sr) as [y|] eqn:Hy; cbn [bind] in Hfold; [|discriminate Hfold].
    destruct (series_add x y) as [c|e] eqn:Hc; cbn [bind] in Hfold; [|discriminate Hfold].
    destruct (IH _ _ Hfold) as [IHin IHout].
    split.
    + intros key [<-|Hin].
      * destruct (IHout key0 (dict_set key0 c br) Hnotin eq_refl) as [ro [Hro Hget]].
        exists br, sr, ro, x, y, c. repeat split; try assumption.
        rewrite Hget. apply dict_get_set_same.
      * destruct (IHin key Hin) as [br1 [sr1 [ro [x1 [y1 [c1 [H1 [H2 [H3 [H4 [H5 [H6 H7]]]]]]]]]]]].
        simpl in H1. injection H1 as <-.
        assert (Esr : sr1 = sr) by congruence. subst sr1.
        exists br, sr, ro, x1, y1, c1. repeat split; try assumption.
        rewrite <- H4. symmetry. apply dict_get_set_other.
        intros ->. contradiction.
    + intros key br0 Hnot Hbr0. injection Hbr0 as <-.
      destruct (IHout key (dict_set key0 c br)) as [ro [Hro Hget]];
        [intros Hin; apply Hnot; right; exact Hin | reflexivity |].
      exists ro. split; [exact Hro|]. rewrite Hget.
      apply dict_get_set_other. intros ->. apply Hnot. left. reflexivity.
Qed.

(** X15: combining two replicates adds their result series key by key, for
    the keys that the second one lists in [results_keys]; a series of the
    first replicate that the second does not list is kept as it is. *)
Theorem X15_combine_results (first second out : Sim series) (n : Z)
  (keys : list string) :
  combine_sims [first; second] n = Ok out ->
  results_keys second = Some keys ->
  NoDup keys ->
  (forall key, In key keys ->
     exists r1 r2 ro x y c,
       results first = Some r1 /\ results second = Some r2 /\ results out = Some ro /\
       dict_get key r1 = Some x /\ dict_get key r2 = Some y /\
       series_add x y = Ok c /\ dict_get key ro = Some c) /\
  (forall key r1, ~ In key keys -> results first = Some r1 ->
     exists ro, results out = Some ro /\ dict_get key ro = dict_get key r1).
Proof.
  intros H Hkeys Hnd.
  destruct (combine_sims_inv _ _ _ H) as [f [rest [old_n [new_n [E [_ [_ Hfold]]]]]]].
  injection E as <- <-. cbn [foldM] in Hfold.
  match type of Hfold with
  | bind ?m _ = _ => destruct m as [a1|e] eqn:Hstep; cbn [bind] in Hfold;
                       [|discriminate Hfold]
  end.
  injection Hfold as ->.
  destruct (people (with_pars first
              (dict_set "n" new_n (dict_set "parallelized" (VInt n) (pars first)))))
    as [op|]; cbn [attr bind] in Hstep; [|discriminate Hstep].
  destruct (people second) as [sp|]; cbn [attr bind] in Hstep; [|discriminate Hstep].
  rewrite Hkeys in Hstep. cbn [attr bind] in Hstep.
  apply (combine_results_fold second keys Hnd _ _ Hstep).
Qed.

(** *** The accessors of a simulation *)

Lemma n_days_plus_1_int (self : Sim series) (N : Z) :
  dict_get "n_days" (pars self) = Some (VInt N) ->
  n_days_plus_1 self = Ok (NInt (N + 1)).
Proof.
  intros H. unfold n_days_plus_1, Sim_getitem.
  rewrite (getitem_present _ _ _ H). reflexivity.
Qed.

Lemma n_days_plus_1_float (self : Sim series) (q : Q) :
  dict_get "n_days" (pars self) = Some (VFloat q) ->
  n_days_plus_1 self = Ok (NFloat (q + inject_Z 1)).
Proof.
  intros H. unfold n_days_plus_1, Sim_getitem.
  rewrite (getitem_present _ _ _ H). reflexivity.
Qed.

(** X16: with an integer [n_days] of [N] the number of time points is [N+1]
    and the time vector is [0, 1, ..., N] (of [int64]), so for [N >= -1] the
    vector has as many entries as there are time points; without an
    [n_days] parameter both raise [KeyError('n_days')]. *)
Theorem X16_time_points (self : Sim series) :
  (forall N, dict_get "n_days" (pars self) = Some (VInt N) ->
     npts self = Ok (N + 1) /\
     exists tv,
       tvec self = Ok tv /\
       length tv = Z.to_nat (N + 1) /\
       (-1 <= N -> Z.of_nat (length tv) = N + 1) /\
       forall i, 0 <= i <= N -> nth_error tv (Z.to_nat i) = Some (VInt64 i)) /\
  (dict_mem "n_days" (pars self) = false ->
     npts self = Err (KeyError (VStr "n_days")) /\
     tvec self = Err (KeyError (VStr "n_days"))).
Proof.
  split.
  - intros N H. unfold npts, tvec. rewrite (n_days_plus_1_int self N H). cbn [bind].
    split; [reflexivity|]. eexists. split; [reflexivity|].
    cbn [np_arange_num]. rewrite length_map, length_seq.
    split; [reflexivity|]. split; [lia|].
    intros i Hi. rewrite nth_error_map, nth_error_seq.
    destruct (Nat.ltb_spec (Z.to_nat i) (Z.to_nat (N + 1))); [|lia].
    simpl. rewrite Z2Nat.id by lia. reflexivity.
  - intros H. unfold npts, tvec, n_days_plus_1, Sim_getitem, __getitem__, dict_index.
    unfold dict_mem in H.
    destruct (dict_get "n_days" (pars self)); [discriminate H|]. split; reflexivity.
Qed.

Lemma py_int_floor (x : Q) : (0 <= x)%Q -> py_int (NFloat x) = Qfloor x.
Proof.
  destruct x as [a b]. unfold Qle. simpl. intros H.
  apply Z.quot_div_nonneg; lia.
Qed.

Lemma fractional_n_days (self : Sim series) (q : Q) :
  dict_get "n_days" (pars self) = Some (VFloat q) ->
  (0 <= q)%Q ->
  (forall z, ~ (q == inject_Z z)%Q) ->
  exists tv,
    npts self = Ok (Qfloor (q + inject_Z 1)) /\
    tvec self = Ok tv /\
    Z.of_nat (length tv) = Qfloor (q + inject_Z 1) + 1.
Proof.
  intros H Hq Hfrac. unfold npts, tvec.
  rewrite (n_days_plus_1_float self q H). cbn [bind].
  set (x := (q + inject_Z 1)%Q).
  assert (Hx : (0 <= x)%Q) by (unfold x; change (inject_Z 1) with 1%Q; lra).
  eexists. split; [rewrite (py_int_floor x Hx); reflexivity|].
  split; [reflexivity|].
  cbn [np_arange_num]. rewrite length_map, length_seq.
  pose proof (Qfloor_le x) as Hfl. pose proof (Qlt_floor x) as Hfl'.
  pose proof (Qle_ceiling x) as Hce. pose proof (Qceiling_lt x) as Hce'.
  assert (Hnot : ~ (x == inject_Z (Qfloor x))%Q).
  { intros E. apply (Hfrac (Qfloor x + -1)). rewrite inject_Z_plus.
    change (inject_Z (-1)) with (-1 # 1)%Q.
    change (inject_Z 1) with 1%Q in *. unfold x in E at 1. lra. }
  assert (Hlt : (inject_Z (Qfloor x) < x)%Q).
  { apply Qle_lteq in Hfl. destruct Hfl as [Hl|Hl]; [exact Hl|].
    exfalso. apply Hnot. symmetry. exact Hl. }
  assert (H1 : Qfloor x < Qceiling x).
  { rewrite Zlt_Qlt. apply (Qlt_le_trans _ x); assumption. }
  assert (H2 : Qceiling x - 1 < Qfloor x + 1).
  { rewrite Zlt_Qlt. apply (Qlt_trans _ x); assumption. }
  assert (H0 : 0 <= Qfloor x).
  { rewrite <- (Qfloor_Z 0). apply Qfloor_resp_le. exact Hx. }
  lia.
Qed.

(** X17: with [n_days] half way between two days the two accessors
    disagree: for [n_days = z + 0.5], [npts] truncates to [z + 1] while the
    time vector is [0.0, ..., z + 1.0], with [z + 2] entries. *)
Theorem X17_half_day (self : Sim series) (q : Q) (z : Z) :
  dict_get "n_days" (pars self) = Some (VFloat q) ->
  (q == inject_Z z + (1 # 2))%Q ->
  0 <= z ->
  exists tv,
    npts self = Ok (z + 1) /\
    tvec self = Ok tv /\
    Z.of_nat (length tv) = z + 2 /\
    nth_error tv (Z.to_nat (z + 1)) = Some (VFloat (inject_Z (z + 1))).
Proof.
  intros H Hq Hz.
  assert (Hq0 : (0 <= q)%Q).
  { rewrite Hq. assert (H0 : (inject_Z 0 <= inject_Z z)%Q) by (rewrite <- Zle_Qle; exact Hz).
    change (inject_Z 0) with 0%Q in H0. lra. }
  assert (Hfrac : forall z', ~ (q == inject_Z z')%Q).
  { intros z' E. rewrite Hq in E. revert E. unfold Qeq. simpl. lia. }
  destruct (fractional_n_days self q H Hq0 Hfrac) as [tv [Hn [Ht Hlen]]].
  assert (Hfl : Qfloor (q + inject_Z 1) = z + 1).
  { set (x := (q + inject_Z 1)%Q) in *.
    pose proof (Qfloor_le x) as H1. pose proof (Qlt_floor x) as H2.
    assert (Hx : (x == inject_Z z + (3 # 2))%Q).
    { unfold x. rewrite Hq. change (inject_Z 1) with 1%Q. field. }
    rewrite inject_Z_plus in H2. change (inject_Z 1) with 1%Q in H2.
    assert (Ha : Qfloor x < z + 2).
    { rewrite Zlt_Qlt, inject_Z_plus. change (inject_Z 2) with 2%Q. lra. }
    assert (Hb : z < Qfloor x).
    { rewrite Zlt_Qlt. lra. }
    lia. }
  rewrite Hfl in Hn, Hlen. exists tv. split; [exact Hn|]. split; [exact Ht|].
  split; [lia|].
  unfold tvec in Ht. rewrite (n_days_plus_1_float self q H) in Ht. cbn [bind] in Ht.
  injection Ht as <-. cbn [np_arange_num] in *.
  rewrite length_map, length_seq in Hlen.
  rewrite nth_error_map, nth_error_seq.
  destruct (Nat.ltb_spec (Z.to_nat (z + 1)) (Z.to_nat (Qceiling (q + inject_Z 1))));
    [|lia].
  simpl. rewrite Z2Nat.id by lia. reflexivity.
Qed.

(** X18: a simulation fresh from [Sim] has no people: its population count
    and every lookup of an agent raise [AttributeError], whatever the
    index. *)
Theorem X18_fresh_sim_has_no_people (sim_args : dict pyobj) (s : Sim series) (ind : Z) :
  Sim_new sim_args = Ok s ->
  Sim_n s = Err (AttributeError "'Sim' object has no attribute 'people'") /\
  get_person s ind = Err (AttributeError "'Sim' object has no attribute 'people'").
Proof.
  unfold Sim_new.
  destruct (find _ sim_args) as [[k o]|]; [discriminate|].
  destruct (dict_get "pars" sim_args) as [p|]; [|discriminate].
  destruct (ParsObj_init p) as [d|e]; cbn [bind]; [|discriminate].
  intros H. injection H as <-. split; reflexivity.
Qed.

Lemma list_index_negative {A : Type} (l : list A) (i : Z) :
  0 <= i < Z.of_nat (length l) ->
  list_index l (i - Z.of_nat (length l)) = list_index l i.
Proof.
  intros H. unfold list_index.
  destruct (Z.ltb_spec (i - Z.of_nat (length l)) 0); [|lia].
  destruct (Z.ltb_spec i 0); [lia|].
  replace (i - Z.of_nat (length l) + Z.of_nat (length l)) with i by lia.
  reflexivity.
Qed.

(** X19: an agent can be looked up from the end: for a position [ind] of
    the identifier table, [get_person(ind - len)] is [get_person(ind)]. *)
Theorem X19_get_person_from_the_end (self : Sim series) (us : list string) (ind : Z) :
  uids self = Some us ->
  0 <= ind < Z.of_nat (length us) ->
  get_person self (ind - Z.of_nat (length us)) = get_person self ind.
Proof.
  intros Hu Hin. unfold get_person. rewrite Hu.
  destruct (attr self "people" (people self)) as [ppl|e]; cbn [attr bind]; [|reflexivity].
  rewrite (list_index_negative us ind Hin). reflexivity.
Qed.

Lemma dict_get_In {V : Type} (k : string) (v : V) (d : dict V) :
  dict_get k d = Some v -> In (k, v) d.
Proof.
  induction d as [|[k' v'] d IH]; cbn [dict_get]; intros H.
  - discriminate H.
  - destruct (String.eqb_spec k k') as [->|Hne].
    + injection H as ->. left. reflexivity.
    + right. apply IH. exact H.
Qed.

(** X20: an entry of [iterpars] named [ind] replaces the replicate indices
    [0..m-1] that the batch would pass: the keywords it dispatches carry
    that entry's sequence as [ind]. *)
Theorem X20_iterpars_ind (sim : option (Sim series)) (s : Sim series) (n : Z) (m : nat)
  (iterpars : dict (list value)) (sim_args : option (dict pyobj)) (l : list value) :
  batch_template sim (match sim_args with None => [] | Some a => a end) = Ok s ->
  uniform m iterpars ->
  NoDup (dict_keys iterpars) ->
  dict_get "ind" iterpars = Some l ->
  exists rest,
    multi_run_setup sim n (Some iterpars) sim_args
    = Ok (s, match sim_args with None => [] | Some a => a end, Z.of_nat m,
          ("ind", l) :: rest) /\
    length l = m.
Proof.
  intros Htmpl Hu Hnd Hl.
  set (ind := map (fun i => VInt64 (Z.of_nat i)) (seq 0 m)).
  destruct (dict_update_head (fun _ : list value => True) iterpars [] "ind" ind I)
    as [v [rest [Hupd _]]]; [intros; exact I|].
  assert (Hv : v = l).
  { pose proof (dict_get_update_present "ind" l [("ind", ind)] iterpars Hnd Hl) as Hg.
    rewrite Hupd in Hg. simpl in Hg. injection Hg as ->. reflexivity. }
  subst v. exists rest. split.
  - unfold multi_run_setup. rewrite Htmpl. cbn [bind].
    rewrite (iterpars_len_uniform m iterpars None Hu) by (left; reflexivity).
    destruct iterpars as [|kv ip]; [discriminate Hl|].
    cbn [bind np_arange]. rewrite Nat2Z.id. fold ind. rewrite Hupd. reflexivity.
  - unfold uniform in Hu. rewrite Forall_forall in Hu.
    apply (Hu _ (dict_get_In _ _ _ Hl)).
Qed.

(** *** Reproducibility *)

Lemma int_op_not_none (f : Z -> Z -> Z) (a b : value) (x y : Z) (c : value) :
  int_op f a b x y = Ok c -> c <> VNone.
Proof.
  unfold int_op. destruct (is_int64 a || is_int64 b).
  - destruct (int64_operand a x) as [x'|e]; cbn [bind]; [|discriminate].
    destruct (int64_operand b y) as [y'|e]; cbn [bind]; [|discriminate].
    intros H. injection H as <-. discriminate.
  - intros H. injection H as <-. discriminate.
Qed.

Lemma py_add_not_none (op : string) (a b c : value) :
  py_add op a b = Ok c -> c <> VNone.
Proof.
  unfold py_add.
  destruct (as_num a) as [[x|x]|], (as_num b) as [[y|y]|];
    try apply int_op_not_none;
    try (intros H; injection H as <-; discriminate);
    destruct a, b; intros H; try discriminate H; injection H as <-; discriminate.
Qed.

Lemma single_run_setup_reseeds (sim : option (Sim series)) (ind verbose : value)
  (sim_args : option (dict pyobj)) (g g' : rng) :
  (forall seed g g', seed <> VNone -> cov_ut_set_seed seed g = cov_ut_set_seed seed g') ->
  single_run_setup sim ind verbose sim_args g
  = single_run_setup sim ind verbose sim_args g'.
Proof.
  intros Hforget. unfold single_run_setup.
  destruct (match sim with
            | None => Sim_new match sim_args with None => [] | Some a => a end
            | Some s => Ok s
            end) as [tmpl|e]; cbn [bind]; [|reflexivity].
  destruct (match verbose with
            | VNone => Sim_getitem tmpl "verbose"
            | _ => Ok verbose
            end) as [v|e]; cbn [bind]; [|reflexivity].
  unfold Sim_getitem, __getitem__, dict_index.
  destruct (dict_get "seed" (pars tmpl)) as [sd|] eqn:Hsd; cbn [bind]; [|reflexivity].
  destruct (py_add "+=" sd ind) as [sd'|e] eqn:Hadd; cbn [bind]; [|reflexivity].
  unfold Sim_setitem.
  rewrite setitem_present by (unfold dict_mem; rewrite Hsd; reflexivity).
  cbn [bind].
  rewrite !(set_seed_stored _ sd') by (simpl; apply dict_get_set_same).
  cbn [bind]. rewrite (Hforget sd' g g' (py_add_not_none _ _ _ _ Hadd)). reflexivity.
Qed.

Lemma single_run_forgets
  (Hforget : forall seed g g', seed <> VNone ->
               cov_ut_set_seed seed g = cov_ut_set_seed seed g')
  (sim : option (Sim series)) (ind noise noisepar verbose : value)
  (sim_args : option (dict pyobj)) (kwargs : dict value) (g g' : rng) :
  single_run sim ind noise noisepar verbose sim_args kwargs g
  = single_run sim ind noise noisepar verbose sim_args kwargs g'.
Proof.
  unfold single_run.
  rewrite (single_run_setup_reseeds _ _ _ _ g g' Hforget). reflexivity.
Qed.

(** X21: a replicate run draws its noise only after reseeding with the
    template's seed plus [ind].  If reseeding with a seed forgets the state
    of the generator, as seeding a generator does, the result of
    [single_run] does not depend on the state the generator was in when it
    was called, and neither does the result of a batch. *)
Theorem X21_reproducible (sim : option (Sim series))
  (ind noise noisepar verbose : value) (sim_args : option (dict pyobj))
  (kwargs : dict value) (n : Z) (iterpars : option (dict (list value)))
  (combine : bool) (g g' : rng) :
  (forall seed g g', seed <> VNone -> cov_ut_set_seed seed g = cov_ut_set_seed seed g') ->
  single_run sim ind noise noisepar verbose sim_args kwargs g
  = single_run sim ind noise noisepar verbose sim_args kwargs g' /\
  multi_run sim n noise noisepar iterpars verbose sim_args combine kwargs g
  = multi_run sim n noise noisepar iterpars verbose sim_args combine kwargs g'.
Proof.
  intros Hforget.
  assert (Hsingle : forall sim ind noise noisepar verbose sim_args kwargs,
             single_run sim ind noise noisepar verbose sim_args kwargs g
             = single_run sim ind noise noisepar verbose sim_args kwargs g').
  { intros. apply (single_run_forgets Hforget). }
  split; [apply Hsingle|].
  unfold multi_run.
  destruct (multi_run_setup sim n iterpars sim_args) as [[[[s sa] m] ikw]|e];
    cbn [bind]; [|reflexivity].
  assert (Hpar : parallelize (call_single_run s noise noisepar verbose sa) ikw g
                 = parallelize (call_single_run s noise noisepar verbose sa) ikw g').
  { unfold parallelize.
    destruct (Nat.eqb _ 0); [reflexivity|].
    apply mapM_ext_in. intros i _.
    destruct (iterdict ikw i) as [kw|e]; cbn [bind]; [|reflexivity].
    unfold call_single_run.
    destruct (match dict_get "sim" kw with
              | None => Ok (Some s)
              | Some VNone => Ok None
              | Some v => Err (not_subscriptable v)
              end) as [sim'|e]; cbn [bind]; [|reflexivity].
    destruct (match dict_get "sim_args" kw, sim' with
              | None, _ => Ok (Some sa)
              | Some VNone, _ | Some _, Some _ => Ok None
              | Some v, None =>
                  Err (TypeError ("argument after ** must be a mapping, not "
                                  ++ type_name v))
              end) as [sa'|e]; cbn [bind]; [|reflexivity].
    rewrite Hsingle. reflexivity. }
  rewrite Hpar. reflexivity.
Qed.

(** X22: a batch without [iterpars] and with a positive count is its
    replicates.  Replicate [i] is [single_run] on the template with
    [ind = i], the batch's noise, noise parameter and verbosity and no
    overrides (those given to the batch are never used), from whatever state
    its worker's generator is in, reseeding being assumed to forget it.  If
    all replicates return, the batch returns their simulations in index
    order, or their combination; a batch that returns has run them all; and
    if one of them fails, so does the batch. *)
Theorem X22_batch_is_replicates (s : Sim series) (n : Z)
  (noise noisepar verbose : value) (sim_args : option (dict pyobj))
  (combine : bool) (kwargs : dict value) (g : rng) (gs : nat -> rng) :
  (forall seed g g', seed <> VNone -> cov_ut_set_seed seed g = cov_ut_set_seed seed g') ->
  0 < n ->
  let replicate := fun i : nat =>
    r <- single_run (Some s) (VInt64 (Z.of_nat i)) noise noisepar verbose
           (Some (match sim_args with None => [] | Some a => a end)) [] (gs i) ;;
    Ok (fst r) in
  (forall sims,
     mapM replicate (seq 0 (Z.to_nat n)) = Ok sims ->
     multi_run (Some s) n noise noisepar None verbose sim_args combine kwargs g
     = if negb combine then Ok (Sims sims)
       else output_sim <- combine_sims sims n ;; Ok (Combined output_sim)) /\
  (forall sims,
     multi_run (Some s) n noise noisepar None verbose sim_args false kwargs g
     = Ok (Sims sims) ->
     length sims = Z.to_nat n /\
     forall i, (i < Z.to_nat n)%nat ->
       exists s_i, nth_error sims i = Some s_i /\ replicate i = Ok s_i) /\
  (forall i e,
     (i < Z.to_nat n)%nat -> replicate i = Err e ->
     exists e',
       multi_run (Some s) n noise noisepar None verbose sim_args combine kwargs g
       = Err e').
Proof.
  intros Hforget Hn replicate.
  assert (Hrun : multi_run (Some s) n noise noisepar None verbose sim_args combine kwargs g
                 = (sims <- mapM replicate (seq 0 (Z.to_nat n)) ;;
                    if negb combine then Ok (Sims sims)
                    else output_sim <- combine_sims sims n ;; Ok (Combined output_sim))).
  { rewrite (multi_run_replicates _ _ _ _ _ _ _ _ _ Hn). f_equal. apply mapM_ext_in. intros i _.
    unfold replicate. rewrite (single_run_forgets Hforget _ _ _ _ _ _ _ g (gs i)).
    reflexivity. }
  assert (Hrun' : multi_run (Some s) n noise noisepar None verbose sim_args false kwargs g
                  = (sims <- mapM replicate (seq 0 (Z.to_nat n)) ;; Ok (Sims sims))).
  { rewrite (multi_run_replicates _ _ _ _ _ _ _ _ _ Hn). f_equal. apply mapM_ext_in. intros i _.
    unfold replicate. rewrite (single_run_forgets Hforget _ _ _ _ _ _ _ g (gs i)).
    reflexivity. }
  split; [|split].
  - intros sims Hm. rewrite Hrun, Hm. reflexivity.
  - intros sims. rewrite Hrun'.
    destruct (mapM replicate (seq 0 (Z.to_nat n))) as [r|e] eqn:Hm; cbn [bind];
      [|discriminate].
    intros H. injection H as <-. split.
    + rewrite (mapM_length replicate _ _ Hm). apply length_seq.
    + intros i Hi. apply (mapM_nth replicate _ _ Hm i i).
      rewrite nth_error_seq. destruct (Nat.ltb_spec i (Z.to_nat n)); [reflexivity | lia].
  - intros i e Hi Herr. rewrite Hrun.
    destruct (mapM replicate (seq 0 (Z.to_nat n))) as [r|e'] eqn:Hm; cbn [bind].
    + exfalso.
      destruct (mapM_nth replicate _ _ Hm i i) as [s_i [_ Hs]].
      * rewrite nth_error_seq.
        destruct (Nat.ltb_spec i (Z.to_nat n)); [reflexivity | lia].
      * rewrite Herr in Hs. discriminate Hs.
    + exists e'. reflexivity.
Qed.

End Model.

(** ** Examples on the sample objects *)

Abbreviation sample_setitem := (__setitem__ sample_suggest).
Abbreviation sample_set_seed_method := (set_seed sample_suggest Z sample_set_seed Z).
Abbreviation sample_apply_noise := (apply_noise sample_suggest Z sample_normal Z).
Abbreviation sample_setup := (single_run_setup sample_suggest Z sample_set_seed Z).
Abbreviation sample_single_run :=
  (single_run sample_suggest Z sample_set_seed sample_normal Z sample_run).
Abbreviation sample_multi_run_setup := (multi_run_setup Z).
Abbreviation sample_multi_run :=
  (multi_run sample_suggest Z sample_set_seed sample_normal Z sample_series_add sample_run).
Abbreviation sample_combine := (combine_sims Z sample_series_add).

Lemma length_append (a b : string) :
  String.length (a ++ b) = (String.length a + String.length b)%nat.
Proof. induction a as [|c a IH]; simpl; [reflexivity | rewrite IH; reflexivity]. Qed.

Lemma includes_length (s t : string) :
  includes s t -> (String.length s <= String.length t)%nat.
Proof.
  intros [a [b ->]]. rewrite !length_append. lia.
Qed.

Lemma C2_update_pars_keys_witness :
  NoDup (dict_keys [("beta", VFloat (1 # 4)); ("gamma", VInt 2)]) /\
  dict_get "gamma" [("beta", VFloat (1 # 4)); ("gamma", VInt 2)] = Some (VInt 2) /\
  dict_get "gamma"
    (dict_update sample_pars [("beta", VFloat (1 # 4)); ("gamma", VInt 2)])
  = Some (VInt 2).
Proof.
  assert (Hnd : NoDup (dict_keys [("beta", VFloat (1 # 4)); ("gamma", VInt 2)])).
  { repeat constructor; simpl; intuition discriminate. }
  split; [exact Hnd|]. split; [reflexivity|].
  apply (proj1 (proj2 (proj2 (proj2
           (C2_update_pars_keys sample_suggest Z sample_series_add sample_pars
              [("beta", VFloat (1 # 4)); ("gamma", VInt 2)])))) Hnd).
  reflexivity.
Defined.

(** C2 as stated fails: an update naming a key the store lacks adds it, and
    the combine path of [multi_run] writes [parallelized] into the store. *)
Lemma C2_counterexample :
  update_pars (Some sample_pars) (PDict [("gamma", VInt 2)])
  = Ok (sample_pars ++ [("gamma", VInt 2)])%list /\
  dict_mem "gamma" sample_pars = false /\
  dict_mem "gamma" (sample_pars ++ [("gamma", VInt 2)])%list = true /\
  exists out,
    sample_combine [sample_sim; sample_sim] 2 = Ok out /\
    dict_mem "parallelized" (pars sample_sim) = false /\
    dict_get "parallelized" (pars out) = Some (VInt 2).
Proof.
  split; [reflexivity|]. split; [reflexivity|]. split; [reflexivity|].
  eexists. split; [vm_compute; reflexivity|]. split; reflexivity.
Qed.

Lemma C3_unknown_key_witness :
  dict_mem "bet" sample_pars = false /\
  __getitem__ sample_pars "bet" = Err (KeyError (VStr "bet")) /\
  sample_suggest "bet" (dict_keys sample_pars) = Ok (Some "beta") /\
  (exists msg,
     sample_setitem sample_pars "bet" VNone = Err (KeyError (VStr msg)) /\
     includes ("did you mean " ++ dquote ++ "beta" ++ dquote) msg) /\
  dict_mem "r0" sample_pars = false /\
  sample_suggest "r0" (dict_keys sample_pars) = Ok None /\
  (exists msg,
     sample_setitem sample_pars "r0" VNone = Err (KeyError (VStr msg)) /\
     includes ("available keys:" ++ newline ++ String.concat newline (dict_keys sample_pars))
              msg) /\
  dict_mem "seed" ([] : dict value) = false /\
  sample_suggest "seed" (dict_keys ([] : dict value))
  = Err (ValueError "min() arg is an empty sequence") /\
  sample_setitem [] "seed" VNone = Err (ValueError "min() arg is an empty sequence").
Proof.
  destruct (C3_unknown_key sample_suggest sample_pars "bet" eq_refl) as [Hget Hset].
  destruct (C3_unknown_key sample_suggest sample_pars "r0" eq_refl) as [_ Hset'].
  destruct (C3_unknown_key sample_suggest [] "seed" eq_refl) as [_ Hset0].
  split; [reflexivity|]. split; [exact Hget|]. split; [reflexivity|].
  split; [|split; [reflexivity|split; [reflexivity|split; [|split; [reflexivity|split;
    [reflexivity|]]]]]].
  - destruct (proj2 (Hset VNone) (Some "beta") eq_refl) as [msg [Hm [_ [Hs _]]]].
    exists msg. split; [exact Hm|]. apply Hs; [reflexivity | discriminate].
  - destruct (proj2 (Hset' VNone) None eq_refl) as [msg [Hm [_ [_ Hl]]]].
    exists msg. split; [exact Hm|]. apply Hl. left. reflexivity.
  - exact (proj1 (Hset0 VNone) _ eq_refl).
Defined.

(** C3 as stated fails on reads: the error of reading a missing key carries
    the key alone, neither the suggestion the write would give nor the list
    of valid keys. *)
Lemma C3_counterexample :
  dict_mem "bet" sample_pars = false /\
  sample_suggest "bet" (dict_keys sample_pars) = Ok (Some "beta") /\
  __getitem__ sample_pars "bet" = Err (KeyError (VStr "bet")) /\
  ~ includes "beta" "bet" /\
  ~ includes (String.concat newline (dict_keys sample_pars)) "bet".
Proof.
  split; [reflexivity|]. split; [reflexivity|]. split; [reflexivity|].
  split; intros H; apply includes_length in H; simpl in H; lia.
Qed.

(** C1 on the code: [single_run(sim, verbose=0, beta=0.5)] on a template
    whose [beta] is [0.1] returns a replicate whose [beta] is still [0.1]
    (times the multiplier [1] of a zero noise), not [0.5]: the assignment of
    the override is nested under the [verbose>=1] test of its progress
    message.  The same call with [verbose=1] stores [0.5], and an override
    that names no parameter raises the [KeyError] in both. *)
Theorem C1_override_dropped_when_quiet :
  (exists new_sim g q,
     sample_single_run (Some sample_sim) (VInt 0) (VFloat 0) VNone (VInt 0) None
       [("beta", VFloat (1 # 2))] 0 = Ok (new_sim, g) /\
     dict_get "beta" (pars new_sim) = Some (VFloat q) /\
     (q == 1 # 10)%Q /\ ~ (q == 1 # 2)%Q) /\
  (exists new_sim g,
     sample_single_run (Some sample_sim) (VInt 0) (VFloat 0) VNone (VInt 1) None
       [("beta", VFloat (1 # 2))] 0 = Ok (new_sim, g) /\
     dict_get "beta" (pars new_sim) = Some (VFloat (1 # 2))) /\
  sample_single_run (Some sample_sim) (VInt 0) (VFloat 0) VNone (VInt 0) None
    [("gamma", VFloat (1 # 2))] 0
  = Err (KeyError (VStr "Could not set key gamma: not a valid parameter name")) /\
  sample_single_run (Some sample_sim) (VInt 0) (VFloat 0) VNone (VInt 1) None
    [("gamma", VFloat (1 # 2))] 0
  = Err (KeyError (VStr "Could not set key gamma: not a valid parameter name")).
Proof.
  split; [|split; [|split]].
  - eexists _, _, _. split; [vm_compute; reflexivity|].
    split; [reflexivity|]. split; [reflexivity | discriminate].
  - eexists _, _. split; [vm_compute; reflexivity | reflexivity].
  - vm_compute. reflexivity.
  - vm_compute. reflexivity.
Qed.

Lemma C4_guess_without_template_witness :
  sample_setup None (VInt 0) VNone (Some [("pars", PDict sample_pars)]) 0
  = Ok (mkSim BaseSim sample_pars None None None None, VInt 0, 1) /\
  found_guesses sample_pars = ["beta"] /\
  sample_single_run None (VInt 0) (VFloat 0) VNone VNone
    (Some [("pars", PDict sample_pars)]) [] 0
  = Err (AttributeError "'NoneType' object has no attribute 'pars'").
Proof.
  split; [reflexivity|]. split; [reflexivity|].
  apply (proj2 (proj2 (C4_guess_without_template sample_suggest Z sample_set_seed
                         sample_normal Z sample_run (VInt 0) (VFloat 0) VNone
                         (Some [("pars", PDict sample_pars)]) [] 0))
           (mkSim BaseSim sample_pars None None None None) (VInt 0) 1).
  reflexivity.
Defined.

Lemma C5_set_seed_witness :
  VInt 7 <> VNone /\
  dict_get "seed" (pars sample_sim) = Some (VInt 1) /\
  dict_mem "seed" (pars sample_sim) = true /\
  sample_set_seed_method sample_sim (VInt 7) true 0
  = Err (ValueError "You can supply a seed or set randomize=True, but not both") /\
  sample_set_seed_method sample_sim VNone false 0 = Ok (sample_sim, 1) /\
  exists self',
    sample_set_seed_method sample_sim (VInt 7) false 0 = Ok (self', 7) /\
    dict_get "seed" (pars self') = Some (VInt 7) /\
    (forall k, k <> "seed" -> dict_get k (pars self') = dict_get k (pars sample_sim)) /\
    forall g', sample_set_seed_method self' VNone false g' = Ok (self', 7).
Proof.
  assert (Hne : VInt 7 <> VNone) by discriminate.
  destruct (C5_set_seed sample_suggest Z sample_set_seed Z sample_sim 0)
    as [Hboth [Hreuse Hstore]].
  split; [exact Hne|]. split; [reflexivity|]. split; [reflexivity|].
  split; [exact (Hboth (VInt 7) Hne)|].
  split; [exact (Hreuse (VInt 1) eq_refl)|].
  exact (Hstore (VInt 7) Hne eq_refl).
Defined.





Lemma C8_noisefactor_witness :
  ((0 < 1 # 2)%Q /\ noisefactor (1 # 2) = (1 + (1 # 2))%Q /\ (0 < noisefactor (1 # 2))%Q) /\
  ((- (1 # 2) <= 0)%Q /\ noisefactor (- (1 # 2)) = (1 / (1 - - (1 # 2)))%Q /\
   (0 < noisefactor (- (1 # 2)))%Q) /\
  exists new_sim nf g,
    sample_apply_noise sample_sim (VFloat (1 # 5)) (VStr "beta") 1 = Ok (new_sim, nf, g) /\
    exists noiseval key old new,
    py_mul_float (VFloat (1 # 5)) (fst (sample_normal 1)) = Ok noiseval /\
    nf = noisefactor noiseval /\ (0 < nf)%Q /\
    VStr "beta" = VStr key /\ dict_get key (pars sample_sim) = Some old /\
    py_mul "*=" old (VFloat nf) = Ok new /\
    dict_get key (pars new_sim) = Some new.
Proof.
  assert (Hpos : (0 < 1 # 2)%Q) by reflexivity.
  assert (Hneg : (- (1 # 2) <= 0)%Q) by discriminate.
  split; [|split].
  - destruct (C8_noisefactor sample_suggest Z sample_normal Z (1 # 2)) as [H0 [H1 _]].
    split; [exact Hpos|]. split; [exact (H1 Hpos) | exact H0].
  - destruct (C8_noisefactor sample_suggest Z sample_normal Z (- (1 # 2)))
      as [H0 [_ [H2 _]]].
    split; [exact Hneg|]. split; [exact (H2 Hneg) | exact H0].
  - destruct (C8_noisefactor sample_suggest Z sample_normal Z 0) as [_ [_ [_ H]]].
    assert (Hrun : sample_apply_noise sample_sim (VFloat (1 # 5)) (VStr "beta") 1
                   = Ok (with_pars sample_sim
                           (dict_set "beta" (VFloat ((1 # 10) * noisefactor ((1 # 5) * - (1 # 4))))
                                     sample_pars),
                         noisefactor ((1 # 5) * - (1 # 4)), 2)).
    { reflexivity. }
    eexists _, _, _. split; [exact Hrun|].
    exact (H sample_sim _ (VFloat (1 # 5)) (VStr "beta") 1 _ _ Hrun).
Defined.


Lemma C10_get_person_witness :
  (people sample_sim = Some sample_people /\ uids sample_sim = Some ["p0"; "p1"] /\
   (0 <= 1 < Z.of_nat (length ["p0"; "p1"])) /\
   exists uid, nth_error ["p0"; "p1"] (Z.to_nat 1) = Some uid /\
     get_person Z sample_sim 1 = dict_index uid sample_people /\
     forall agent, dict_get uid sample_people = Some agent ->
                   get_person Z sample_sim 1 = Ok agent) /\
  (Z.of_nat (length ["p0"; "p1"]) <= 2 /\
   get_person Z sample_sim 2 = Err (IndexError "list index out of range")) /\
  (-3 < - Z.of_nat (length ["p0"; "p1"]) /\
   get_person Z sample_sim (-3) = Err (IndexError "list index out of range")).
Proof.
  split; [|split].
  - split; [reflexivity|]. split; [reflexivity|].
    assert (Hin : 0 <= 1 < Z.of_nat (length ["p0"; "p1"])) by (simpl; lia).
    split; [exact Hin|].
    exact (proj1 (proj2 (proj2 (C10_get_person Z sample_sim 1)))
             sample_people ["p0"; "p1"] eq_refl eq_refl Hin).
  - assert (Hout : Z.of_nat (length ["p0"; "p1"]) <= 2) by (simpl; lia).
    split; [exact Hout|].
    exact (proj1 (C10_get_person Z sample_sim 2)
             sample_people ["p0"; "p1"] eq_refl eq_refl (or_intror Hout)).
  - assert (Hout : -3 < - Z.of_nat (length ["p0"; "p1"])) by (simpl; lia).
    split; [exact Hout|].
    exact (proj1 (C10_get_person Z sample_sim (-3))
             sample_people ["p0"; "p1"] eq_refl eq_refl (or_introl Hout)).
Defined.

(** ** Examples for the further properties *)

Lemma X1_setitem_getitem_witness :
  sample_setitem sample_pars "beta" (VInt 3)
  = Ok (dict_set "beta" (VInt 3) sample_pars) /\
  __getitem__ (dict_set "beta" (VInt 3) sample_pars) "beta" = Ok (VInt 3) /\
  __getitem__ (dict_set "beta" (VInt 3) sample_pars) "seed" = __getitem__ sample_pars "seed" /\
  dict_keys (dict_set "beta" (VInt 3) sample_pars) = dict_keys sample_pars.
Proof.
  assert (H : sample_setitem sample_pars "beta" (VInt 3)
              = Ok (dict_set "beta" (VInt 3) sample_pars)) by reflexivity.
  destruct (X1_setitem_getitem sample_suggest _ _ _ _ H) as [_ [Hget [Hother Hkeys]]].
  split; [exact H|]. split; [exact Hget|]. split; [|exact Hkeys].
  apply Hother. discriminate.
Defined.

Lemma X2_Sim_new_witness :
  (forall k, In k (dict_keys [("pars", PDict sample_pars)]) -> k = "pars") /\
  Sim_new Z [("pars", PDict sample_pars)]
  = Ok (mkSim BaseSim sample_pars None None None None).
Proof.
  assert (Hall : forall k, In k (dict_keys [("pars", PDict sample_pars)]) -> k = "pars").
  { intros k [<-|[]]. reflexivity. }
  split; [exact Hall|].
  apply (proj2 (X2_Sim_new Z [("pars", PDict sample_pars)]
                  (mkSim BaseSim sample_pars None None None None))).
  split; [exact Hall|]. exists sample_pars. split; reflexivity.
Defined.

Lemma X3_update_pars_order_witness :
  NoDup (dict_keys [("gamma", VInt 2); ("beta", VFloat (1 # 4))]) /\
  exists p',
    update_pars (Some sample_pars) (PDict [("gamma", VInt 2); ("beta", VFloat (1 # 4))])
    = Ok p' /\
    dict_keys p'
    = (dict_keys sample_pars
       ++ filter (fun k => negb (dict_mem k sample_pars))
                 (dict_keys [("gamma", VInt 2); ("beta", VFloat (1 # 4))]))%list /\
    update_pars (Some p') (PDict [("gamma", VInt 2); ("beta", VFloat (1 # 4))]) = Ok p'.
Proof.
  assert (Hnd : NoDup (dict_keys [("gamma", VInt 2); ("beta", VFloat (1 # 4))])).
  { repeat constructor; simpl; intuition discriminate. }
  split; [exact Hnd|].
  exact (proj1 (X3_update_pars_order sample_pars
                  [("gamma", VInt 2); ("beta", VFloat (1 # 4))] Hnd)).
Defined.

Lemma X4_set_seed_without_seed_witness :
  dict_mem "seed" (pars (sample_sim_with [("beta", VFloat (1 # 10))])) = false /\
  sample_set_seed_method (sample_sim_with [("beta", VFloat (1 # 10))]) VNone true 5
  = Ok (sample_sim_with [("beta", VFloat (1 # 10))], 5) /\
  sample_set_seed_method (sample_sim_with [("beta", VFloat (1 # 10))]) VNone false 5
  = Err (KeyError (VStr "seed")) /\
  sample_suggest "seed" ["beta"] = Ok None /\
  (exists msg,
     sample_set_seed_method (sample_sim_with [("beta", VFloat (1 # 10))]) (VInt 3) false 5
     = Err (KeyError (VStr msg)) /\
     includes "Key seed not found" msg) /\
  dict_mem "seed" (pars (sample_sim_with [])) = false /\
  sample_suggest "seed" [] = Err (ValueError "min() arg is an empty sequence") /\
  sample_set_seed_method (sample_sim_with []) (VInt 3) false 5
  = Err (ValueError "min() arg is an empty sequence").
Proof.
  assert (Hs : VInt 3 <> VNone) by discriminate.
  destruct (X4_set_seed_without_seed sample_suggest Z sample_set_seed Z
              (sample_sim_with [("beta", VFloat (1 # 10))]) 5 eq_refl) as [H1 [H2 H3]].
  destruct (X4_set_seed_without_seed sample_suggest Z sample_set_seed Z
              (sample_sim_with []) 5 eq_refl) as [_ [_ H0]].
  split; [reflexivity|]. split; [exact H1|]. split; [exact H2|].
  split; [reflexivity|].
  split; [exact (proj2 (H3 (VInt 3) Hs) None eq_refl)|].
  split; [reflexivity|]. split; [reflexivity|].
  exact (proj1 (H0 (VInt 3) Hs) _ eq_refl).
Defined.

Lemma X5_noisefactor_monotone_witness :
  (- (1 # 2) <= 0)%Q /\ (0 < noisefactor (- (1 # 2)) <= 1)%Q /\
  (0 <= 1 # 3)%Q /\ (1 <= noisefactor (1 # 3))%Q /\
  (- (1 # 2) <= 1 # 3)%Q /\ (noisefactor (- (1 # 2)) <= noisefactor (1 # 3))%Q.
Proof.
  destruct (X5_noisefactor_monotone (- (1 # 2)) (1 # 3)) as [H1 [_ H3]].
  destruct (X5_noisefactor_monotone (1 # 3) 0) as [_ [H2 _]].
  assert (Ha : (- (1 # 2) <= 0)%Q) by discriminate.
  assert (Hb : (0 <= 1 # 3)%Q) by discriminate.
  assert (Hc : (- (1 # 2) <= 1 # 3)%Q) by discriminate.
  split; [exact Ha|]. split; [exact (H1 Ha)|]. split; [exact Hb|].
  split; [exact (H2 Hb)|]. split; [exact Hc | exact (H3 Hc)].
Defined.

Lemma X6_zero_noise_witness :
  as_num (VInt 0) = Some (NInt 0) /\ (num_Q (NInt 0) == 0)%Q /\
  exists new_sim' nf g',
    sample_apply_noise sample_sim (VInt 0) (VStr "n") 1 = Ok (new_sim', nf, g') /\
    (nf == 1)%Q /\
    exists key old y q,
      VStr "n" = VStr key /\ dict_get key (pars sample_sim) = Some old /\
      as_num old = Some y /\
      dict_get key (pars new_sim') = Some (VFloat q) /\ (q == num_Q y)%Q.
Proof.
  split; [reflexivity|]. split; [reflexivity|].
  destruct (sample_apply_noise sample_sim (VInt 0) (VStr "n") 1)
    as [[[new_sim' nf] g']|e] eqn:E.
  - exists new_sim', nf, g'. split; [reflexivity|].
    exact (X6_zero_noise sample_suggest Z sample_normal Z sample_sim new_sim'
             (VInt 0) (VStr "n") (NInt 0) 1 g' nf eq_refl (Qeq_refl 0) E).
  - vm_compute in E. discriminate E.
Defined.

Lemma X7_single_run_calls_run_witness :
  exists r,
    sample_single_run (Some sample_sim) (VInt 2) (VFloat (1 # 5)) VNone VNone None [] 0
    = Ok r /\
    exists tmpl name new_sim v sd sd',
      Some sample_sim = Some tmpl /\ sim_cls tmpl = DerivedSim name /\
      same_frame Z tmpl new_sim /\
      resolve_verbose (pars tmpl) VNone = Some v /\
      dict_get "seed" (pars tmpl) = Some sd /\
      py_add "+=" sd (VInt 2) = Ok sd' /\
      sample_run new_sim v (snd (sample_normal (sample_set_seed sd' 0))) = Ok r.
Proof.
  destruct (sample_single_run (Some sample_sim) (VInt 2) (VFloat (1 # 5)) VNone VNone
              None [] 0) as [r|e] eqn:E.
  - exists r. split; [reflexivity|].
    exact (X7_single_run_calls_run sample_suggest Z sample_set_seed sample_normal Z
             sample_run _ _ _ _ _ _ _ _ r E).
  - vm_compute in E. discriminate E.
Defined.

Lemma X8_base_class_never_runs_witness :
  (exists s, Some sample_base = Some s /\ sim_cls s = BaseSim) /\
  exists e,
    sample_single_run (Some sample_base)
      (VInt 0) (VFloat 0) (VStr "beta") (VInt 0) None [] 0 = Err e.
Proof.
  assert (H : exists s, Some sample_base = Some s /\ sim_cls s = BaseSim).
  { exists sample_base. split; reflexivity. }
  split; [exact H|].
  exact (X8_base_class_never_runs sample_suggest Z sample_set_seed sample_normal Z
           sample_run _ (VInt 0) (VFloat 0) (VStr "beta") (VInt 0) None [] 0
           (or_intror H)).
Defined.


Lemma X10_missing_verbose_or_seed_witness :
  (dict_mem "verbose" (pars (sample_sim_with [("seed", VInt 1)])) = false /\
   sample_single_run (Some (sample_sim_with [("seed", VInt 1)]))
     (VInt 0) (VFloat 0) VNone VNone None [] 0
   = Err (KeyError (VStr "verbose"))) /\
  (resolve_verbose (pars (sample_sim_with [("verbose", VInt 0)])) VNone = Some (VInt 0) /\
   dict_mem "seed" (pars (sample_sim_with [("verbose", VInt 0)])) = false /\
   sample_single_run (Some (sample_sim_with [("verbose", VInt 0)]))
     (VInt 0) (VFloat 0) VNone VNone None [] 0
   = Err (KeyError (VStr "seed"))).
Proof.
  split.
  - split; [reflexivity|].
    exact (proj1 (X10_missing_verbose_or_seed sample_suggest Z sample_set_seed
                    sample_normal Z sample_run (sample_sim_with [("seed", VInt 1)])
                    (VInt 0) (VFloat 0) VNone VNone None [] 0) eq_refl eq_refl).
  - split; [reflexivity|]. split; [reflexivity|].
    exact (proj2 (X10_missing_verbose_or_seed sample_suggest Z sample_set_seed
                    sample_normal Z sample_run (sample_sim_with [("verbose", VInt 0)])
                    (VInt 0) (VFloat 0) VNone VNone None [] 0)
             (VInt 0) eq_refl eq_refl).
Defined.


Lemma X12_empty_iterpars_witness :
  batch_template Z (Some sample_sim) [] = Ok sample_sim /\
  exists msg,
    sample_multi_run_setup (Some sample_sim) 4 (Some []) None = Err (TypeError msg) /\
    sample_multi_run (Some sample_sim) 4 (VFloat 0) VNone (Some []) VNone None false [] 0
    = Err (TypeError msg).
Proof.
  split; [reflexivity|].
  exact (X12_empty_iterpars sample_suggest Z sample_set_seed sample_normal Z
           sample_series_add sample_run (Some sample_sim) sample_sim 4
           (VFloat 0) VNone VNone None false [] 0 eq_refl).
Defined.

Lemma X13_combine_keeps_first_witness :
  exists out,
    sample_combine [sample_sim; sample_sim] 2 = Ok out /\
    exists first rest old_n new_n,
      [sample_sim; sample_sim] = first :: rest /\
      dict_get "n" (pars first) = Some old_n /\
      py_mul "*=" old_n (VInt 2) = Ok new_n /\
      pars out = dict_set "n" new_n (dict_set "parallelized" (VInt 2) (pars first)) /\
      (forall k, k <> "n" -> k <> "parallelized" ->
                 dict_get k (pars out) = dict_get k (pars first)) /\
      sim_cls out = sim_cls first /\
      uids out = uids first /\
      results_keys out = results_keys first.
Proof.
  destruct (sample_combine [sample_sim; sample_sim] 2) as [out|e] eqn:E.
  - exists out. split; [reflexivity|].
    exact (X13_combine_keeps_first Z sample_series_add _ 2 out E).
  - vm_compute in E. discriminate E.
Defined.

Lemma X14_combine_people_witness :
  exists out,
    sample_combine [sample_sim; sample_sim] 2 = Ok out /\
    In sample_sim [sample_sim; sample_sim] /\
    people sample_sim = Some sample_people /\
    dict_mem "p1" sample_people = true /\
    exists outp, people out = Some outp /\ dict_mem "p1" outp = true.
Proof.
  destruct (sample_combine [sample_sim; sample_sim] 2) as [out|e] eqn:E.
  - exists out. split; [reflexivity|].
    assert (Hin : In sample_sim [sample_sim; sample_sim]) by (left; reflexivity).
    split; [exact Hin|]. split; [reflexivity|]. split; [reflexivity|].
    exact (X14_combine_people Z sample_series_add _ 2 out E sample_sim sample_people
             "p1" Hin eq_refl eq_refl).
  - vm_compute in E. discriminate E.
Defined.

Lemma X15_combine_results_witness :
  exists out,
    sample_combine [sample_sim; sample_sim] 2 = Ok out /\
    results_keys sample_sim = Some ["cum_exposed"] /\
    NoDup ["cum_exposed"] /\
    exists r1 r2 ro x y c,
      results sample_sim = Some r1 /\ results sample_sim = Some r2 /\
      results out = Some ro /\
      dict_get "cum_exposed" r1 = Some x /\ dict_get "cum_exposed" r2 = Some y /\
      sample_series_add x y = Ok c /\ dict_get "cum_exposed" ro = Some c.
Proof.
  destruct (sample_combine [sample_sim; sample_sim] 2) as [out|e] eqn:E.
  - exists out. split; [reflexivity|]. split; [reflexivity|].
    assert (Hnd : NoDup ["cum_exposed"]) by (repeat constructor; simpl; tauto).
    split; [exact Hnd|].
    apply (proj1 (X15_combine_results Z sample_series_add sample_sim sample_sim out 2
                    ["cum_exposed"] E eq_refl Hnd)).
    left. reflexivity.
  - vm_compute in E. discriminate E.
Defined.

Lemma X16_time_points_witness :
  dict_get "n_days" (pars (sample_sim_with [("n_days", VInt 3)])) = Some (VInt 3) /\
  npts Z (sample_sim_with [("n_days", VInt 3)]) = Ok 4 /\
  (exists tv,
     tvec Z (sample_sim_with [("n_days", VInt 3)]) = Ok tv /\
     length tv = Z.to_nat (3 + 1) /\
     (-1 <= 3 -> Z.of_nat (length tv) = 3 + 1) /\
     forall i, 0 <= i <= 3 -> nth_error tv (Z.to_nat i) = Some (VInt64 i)) /\
  dict_mem "n_days" (pars sample_sim) = false /\
  npts Z sample_sim = Err (KeyError (VStr "n_days")) /\
  tvec Z sample_sim = Err (KeyError (VStr "n_days")).
Proof.
  split; [reflexivity|].
  destruct (proj1 (X16_time_points Z (sample_sim_with [("n_days", VInt 3)])) 3 eq_refl)
    as [Hn Ht].
  split; [exact Hn|]. split; [exact Ht|]. split; [reflexivity|].
  exact (proj2 (X16_time_points Z sample_sim) eq_refl).
Defined.

Lemma X17_half_day_witness :
  dict_get "n_days" (pars (sample_sim_with [("n_days", VFloat (5 # 2))]))
  = Some (VFloat (5 # 2)) /\
  (5 # 2 == inject_Z 2 + (1 # 2))%Q /\
  0 <= 2 /\
  exists tv,
    npts Z (sample_sim_with [("n_days", VFloat (5 # 2))]) = Ok (2 + 1) /\
    tvec Z (sample_sim_with [("n_days", VFloat (5 # 2))]) = Ok tv /\
    Z.of_nat (length tv) = 2 + 2 /\
    nth_error tv (Z.to_nat (2 + 1)) = Some (VFloat (inject_Z (2 + 1))).
Proof.
  assert (Hq : (5 # 2 == inject_Z 2 + (1 # 2))%Q) by reflexivity.
  assert (Hz : 0 <= 2) by lia.
  split; [reflexivity|]. split; [exact Hq|]. split; [exact Hz|].
  exact (X17_half_day Z (sample_sim_with [("n_days", VFloat (5 # 2))]) (5 # 2) 2
           eq_refl Hq Hz).
Defined.

Lemma X18_fresh_sim_has_no_people_witness :
  Sim_new Z [("pars", PDict sample_pars)] = Ok sample_base /\
  Sim_n Z sample_base = Err (AttributeError "'Sim' object has no attribute 'people'") /\
  get_person Z sample_base 0
  = Err (AttributeError "'Sim' object has no attribute 'people'").
Proof.
  split; [reflexivity|].
  exact (X18_fresh_sim_has_no_people Z [("pars", PDict sample_pars)] sample_base 0
           eq_refl).
Defined.

Lemma X19_get_person_from_the_end_witness :
  uids sample_sim = Some ["p0"; "p1"] /\
  0 <= 1 < Z.of_nat (length ["p0"; "p1"]) /\
  get_person Z sample_sim (1 - Z.of_nat (length ["p0"; "p1"])) = get_person Z sample_sim 1.
Proof.
  assert (Hin : 0 <= 1 < Z.of_nat (length ["p0"; "p1"])) by (simpl; lia).
  split; [reflexivity|]. split; [exact Hin|].
  exact (X19_get_person_from_the_end Z sample_sim ["p0"; "p1"] 1 eq_refl Hin).
Defined.

Lemma X20_iterpars_ind_witness :
  batch_template Z (Some sample_sim) [] = Ok sample_sim /\
  uniform 2 [("beta", [VFloat (1 # 5); VFloat (2 # 5)]); ("ind", [VInt 5; VInt 6])] /\
  NoDup (dict_keys [("beta", [VFloat (1 # 5); VFloat (2 # 5)]); ("ind", [VInt 5; VInt 6])]) /\
  exists rest,
    sample_multi_run_setup (Some sample_sim) 4
      (Some [("beta", [VFloat (1 # 5); VFloat (2 # 5)]); ("ind", [VInt 5; VInt 6])]) None
    = Ok (sample_sim, [], Z.of_nat 2, ("ind", [VInt 5; VInt 6]) :: rest) /\
    length [VInt 5; VInt 6] = 2%nat.
Proof.
  assert (Hu : uniform 2 [("beta", [VFloat (1 # 5); VFloat (2 # 5)]);
                          ("ind", [VInt 5; VInt 6])]) by (repeat constructor).
  assert (Hnd : NoDup (dict_keys [("beta", [VFloat (1 # 5); VFloat (2 # 5)]);
                                  ("ind", [VInt 5; VInt 6])])).
  { repeat constructor; simpl; intuition discriminate. }
  split; [reflexivity|]. split; [exact Hu|]. split; [exact Hnd|].
  exact (X20_iterpars_ind Z (Some sample_sim) sample_sim 4 2
           [("beta", [VFloat (1 # 5); VFloat (2 # 5)]); ("ind", [VInt 5; VInt 6])]
           None [VInt 5; VInt 6] eq_refl Hu Hnd eq_refl).
Defined.

Lemma sample_reseed_forgets (seed : value) (g g' : Z) :
  seed <> VNone -> sample_reseed seed g = sample_reseed seed g'.
Proof. destruct seed; intros H; try reflexivity. contradiction. Qed.

Lemma X21_reproducible_witness :
  (forall seed g g', seed <> VNone -> sample_reseed seed g = sample_reseed seed g') /\
  single_run sample_suggest Z sample_reseed sample_normal Z sample_run
    (Some sample_sim) (VInt 2) (VFloat (1 # 5)) VNone VNone None [] 0
  = single_run sample_suggest Z sample_reseed sample_normal Z sample_run
      (Some sample_sim) (VInt 2) (VFloat (1 # 5)) VNone VNone None [] 7 /\
  multi_run sample_suggest Z sample_reseed sample_normal Z sample_series_add sample_run
    (Some sample_sim) 3 (VFloat (1 # 5)) VNone None VNone None false [] 0
  = multi_run sample_suggest Z sample_reseed sample_normal Z sample_series_add sample_run
      (Some sample_sim) 3 (VFloat (1 # 5)) VNone None VNone None false [] 7.
Proof.
  split; [exact sample_reseed_forgets|].
  exact (X21_reproducible sample_suggest Z sample_reseed sample_normal Z
           sample_series_add sample_run (Some sample_sim) (VInt 2) (VFloat (1 # 5))
           VNone VNone None [] 3 None false 0 7 sample_reseed_forgets).
Defined.

Abbreviation sample_replicate :=
  (fun i : nat =>
     r <- single_run sample_suggest Z sample_reseed sample_normal Z sample_run
            (Some sample_sim) (VInt64 (Z.of_nat i)) (VFloat (1 # 5)) VNone VNone
            (Some []) [] (7 * Z.of_nat i) ;;
     Ok (fst r)).

Lemma X22_batch_is_replicates_witness :
  (forall seed g g', seed <> VNone -> sample_reseed seed g = sample_reseed seed g') /\
  0 < 3 /\
  exists sims,
    mapM sample_replicate (seq 0 (Z.to_nat 3)) = Ok sims /\
    multi_run sample_suggest Z sample_reseed sample_normal Z sample_series_add sample_run
      (Some sample_sim) 3 (VFloat (1 # 5)) VNone None VNone None false
      [("beta", VFloat (1 # 2))] 0
    = Ok (Sims Z sims).
Proof.
  assert (Hn : 0 < 3) by lia.
  split; [exact sample_reseed_forgets|]. split; [exact Hn|].
  destruct (mapM sample_replicate (seq 0 (Z.to_nat 3))) as [sims|e] eqn:E.
  - exists sims. split; [reflexivity|].
    exact (proj1 (X22_batch_is_replicates sample_suggest Z sample_reseed sample_normal Z
                    sample_series_add sample_run sample_sim 3 (VFloat (1 # 5)) VNone
                    VNone None false [("beta", VFloat (1 # 2))] 0
                    (fun i => 7 * Z.of_nat i) sample_reseed_forgets Hn) sims E).
  - vm_compute in E. discriminate E.
Defined.
